(** * MGT-GO: the polling and persistence pipeline, embedded in Rocq

    A shallow embedding of the Go sources of the market-data collection
    engine: the rate-limit tracker and adaptive scheduler
    ([internal/scheduler]), the market calendar ([internal/utils]), the
    batched writer ([internal/database/writer.go]), the priority write
    queue and the coordinator ([internal/coordinator]) and the HTTP
    endpoint client ([internal/api]).

    Conventions of the embedding.
    - A Go [float64] is an exact rational ([Q]); NaN, infinities and
      rounding are outside the model.  A Go [int] is a [Z].
    - A Go [map[string]T] is a [gmap string T]; a map or pointer that the
      code tests against [nil] is an [option].
    - A mutex-protected critical section is one atomic state transformer.
    - Library services the code calls (the HTTP transport, the JSON
      parser, [fmt.Sscanf], the SQL engine, the time-zone database) are
      parameters of the functions that use them. *)

From Stdlib Require Import ZArith QArith Qminmax Lqa Lia List.
From stdpp Require Import base option list gmap strings pretty sorting.

Open Scope Z_scope.

Set Warnings "-register-all".

(* ================================================================== *)
(** * Part I.  The program                                             *)
(* ================================================================== *)

(** ** float64 comparisons *)

Module F64.

Definition ltb (x y : Q) : bool :=
  match (x ?= y)%Q with Lt => true | _ => false end.

Definition gtb (x y : Q) : bool := ltb y x.

Definition leb (x y : Q) : bool := negb (ltb y x).

Definition geb (x y : Q) : bool := negb (ltb x y).

(** [int64(x)]: conversion of a float to an integer truncates toward zero. *)
Definition to_int (x : Q) : Z := Z.quot (Qnum x) (Z.pos (Qden x)).

(** [float64(n)] *)
Definition of_int (n : Z) : Q := inject_Z n.

End F64.

(** ** Dynamic values *)

Module Dyn.

(** The dynamic values held by a [map[string]interface{}]: what
    [encoding/json] decodes ([nil], [float64], [string], [bool],
    [[]interface{}], [map[string]interface{}]) and the other types the
    code stores (an [int], the [map[string]string] of response headers). *)
Inductive value :=
| VNil
| VInt (n : Z)
| VFloat (x : Q)
| VString (s : string)
| VBool (b : bool)
| VArray (l : list value)
| VMap (m : gmap string value)
| VStrMap (m : gmap string string).

End Dyn.

(** ** internal/scheduler/rate_limiter.go *)

Module RateLimit.

Record RateLimitTracker := mkTracker {
  requestTimes : list Q;
  rateLimitWindow : Q;
  rateLimitMaxRequests : Z;
  rateLimitRemaining : Z;
  rateLimitResetTime : Q;
  isRateLimited : bool;
  retryAfter : Q
}.

Definition NewRateLimitTracker : RateLimitTracker :=
  {| requestTimes := [];
     rateLimitWindow := 60;
     rateLimitMaxRequests := 0;
     rateLimitRemaining := 0;
     rateLimitResetTime := 0;
     isRateLimited := false;
     retryAfter := 0 |}.

Definition with_requestTimes (l : list Q) (r : RateLimitTracker) :=
  mkTracker l (rateLimitWindow r) (rateLimitMaxRequests r)
            (rateLimitRemaining r) (rateLimitResetTime r)
            (isRateLimited r) (retryAfter r).

Definition with_maxRequests (v : Z) (r : RateLimitTracker) :=
  mkTracker (requestTimes r) (rateLimitWindow r) v
            (rateLimitRemaining r) (rateLimitResetTime r)
            (isRateLimited r) (retryAfter r).

Definition with_remaining (v : Z) (r : RateLimitTracker) :=
  mkTracker (requestTimes r) (rateLimitWindow r) (rateLimitMaxRequests r)
            v (rateLimitResetTime r) (isRateLimited r) (retryAfter r).

Definition with_resetTime (v : Q) (r : RateLimitTracker) :=
  mkTracker (requestTimes r) (rateLimitWindow r) (rateLimitMaxRequests r)
            (rateLimitRemaining r) v (isRateLimited r) (retryAfter r).

Definition with_isRateLimited (b : bool) (r : RateLimitTracker) :=
  mkTracker (requestTimes r) (rateLimitWindow r) (rateLimitMaxRequests r)
            (rateLimitRemaining r) (rateLimitResetTime r) b (retryAfter r).

(** The length of a slice, as a Go [int]. *)
Definition len {A} (l : list A) : Z := Z.of_nat (length l).

Section WithScanf.

(** [parseInt] and [parseFloat] wrap [fmt.Sscanf]; the scanner is a
    parameter. *)
Variable parseInt : string -> Z.
Variable parseFloat : string -> Q.

Definition updateFromHeaders (headers : gmap string string)
    (rlt : RateLimitTracker) : RateLimitTracker :=
  let rlt :=
    match headers !! "X-RateLimit-Limit" with
    | Some limit =>
        let val := parseInt limit in
        if 0 <? val then with_maxRequests val rlt else rlt
    | None => rlt
    end in
  let rlt :=
    match headers !! "X-RateLimit-Remaining" with
    | Some remaining =>
        let val := parseInt remaining in
        if 0 <=? val then with_remaining val rlt else rlt
    | None => rlt
    end in
  match headers !! "X-RateLimit-Reset" with
  | Some reset =>
      let val := parseFloat reset in
      if F64.gtb val 0 then with_resetTime val rlt else rlt
  | None => rlt
  end.

Definition RecordRequest (requestTime : Q) (success : bool)
    (headers : option (gmap string string))
    (rlt : RateLimitTracker) : RateLimitTracker :=
  (* Add to request history *)
  let times := requestTimes rlt ++ [requestTime] in
  (* Clean old requests outside window *)
  let times :=
    if 2000 <? len times then
      let cutoffTime := (requestTime - rateLimitWindow rlt)%Q in
      filter (fun t => F64.gtb t cutoffTime = true) times
    else times in
  let rlt := with_requestTimes times rlt in
  (* Update from headers if available *)
  let rlt :=
    match headers with
    | Some h => updateFromHeaders h rlt
    | None => rlt
    end in
  (* Check if we're rate limited *)
  if negb success then with_isRateLimited true rlt
  else if (0 <? rateLimitMaxRequests rlt)
          && (rateLimitMaxRequests rlt <=? len (requestTimes rlt))
  then with_isRateLimited true rlt
  else with_isRateLimited false rlt.

End WithScanf.

Definition GetMinimumInterval (rlt : RateLimitTracker) (tickerCount : Z) : Q :=
  if rateLimitMaxRequests rlt <=? 0 then 0%Q
  else
    let minInterval :=
      (rateLimitWindow rlt / F64.of_int (rateLimitMaxRequests rlt))%Q in
    if 0 <? tickerCount
    then (minInterval * F64.of_int tickerCount)%Q
    else minInterval.

End RateLimit.

(** ** internal/config/ticker_config.go and internal/scheduler/scheduler.go *)

Module Scheduler.
Import RateLimit.

Record TickerConfig := mkTickerConfig {
  Display : bool;
  CollectionEnabled : bool;
  Priority : string;
  RefreshRateMs : option Z
}.

(** Only the field of [config.Settings] that the scheduler reads; the
    map itself may be [nil]. *)
Record Settings := mkSettings {
  TickerConfigs : option (gmap string TickerConfig)
}.

(** An element of [openCharts []interface{}]: a ticker string, or a
    value of some other dynamic type. *)
Inductive chartItem :=
| ChartString (s : string)
| ChartOther.

#[global] Instance chartItem_eq_dec : EqDecision chartItem.
Proof. solve_decision. Defined.

Record UnifiedAdaptiveScheduler := mkScheduler {
  rateLimitTracker : RateLimitTracker;
  lastFetchTimes : gmap string Q;
  enabledTickers : list string;
  settings : option Settings
}.

(** The loop over [openCharts] with its early [return 0]. *)
Fixpoint inOpenCharts (ticker : string) (openCharts : list chartItem) : bool :=
  match openCharts with
  | [] => false
  | ChartString chartTicker :: rest =>
      if decide (chartTicker = ticker) then true
      else inOpenCharts ticker rest
  | ChartOther :: rest => inOpenCharts ticker rest
  end.

(** The loop over [enabledTickers] with its early [return 1]. *)
Fixpoint inEnabled (ticker : string) (enabled : list string) : bool :=
  match enabled with
  | [] => false
  | t :: rest => if decide (t = ticker) then true else inEnabled ticker rest
  end.

(** [uas.settings.TickerConfigs[ticker]] behind its two nil checks. *)
Definition lookupConfig (uas : UnifiedAdaptiveScheduler) (ticker : string)
    : option TickerConfig :=
  match settings uas with
  | Some s =>
      match TickerConfigs s with
      | Some m => m !! ticker
      | None => None
      end
  | None => None
  end.

(** 0 = high, 1 = medium, 2 = low *)
Definition getTickerPriority (uas : UnifiedAdaptiveScheduler)
    (ticker : string) (openCharts : list chartItem) : Z :=
  if inOpenCharts ticker openCharts then 0
  else
    match lookupConfig uas ticker with
    | Some tickerConfig =>
        if decide (Priority tickerConfig = "high") then 0
        else if decide (Priority tickerConfig = "low") then 2
        else 1
    | None =>
        if inEnabled ticker (enabledTickers uas) then 1 else 2
    end.

Definition getTickerRefreshRate (uas : UnifiedAdaptiveScheduler)
    (ticker : string) : Z :=
  match settings uas with
  | None => 0
  | Some s =>
      match TickerConfigs s with
      | None => 0
      | Some m =>
          match m !! ticker with
          | Some tickerConfig =>
              match RefreshRateMs tickerConfig with
              | Some rate =>
                  if rate =? 0 then 0
                  else if rate <? 1000 then 1000
                  else rate
              | None => 0
              end
          | None => 0
          end
      end
  end.

Definition CalculateInterval (uas : UnifiedAdaptiveScheduler)
    (ticker : string) (openCharts : list chartItem) : Q :=
  let priority := getTickerPriority uas ticker openCharts in
  let tickerCount := len (enabledTickers uas) in
  let interval : Q :=
    (if priority =? 0 then 1
     else if priority =? 1 then
       if tickerCount <=? 5 then 6
       else if tickerCount <=? 20 then 10
       else 15
     else
       if tickerCount <=? 5 then 16
       else if tickerCount <=? 20 then 22
       else 30)%Q in
  let refreshRateMs := getTickerRefreshRate uas ticker in
  let interval :=
    if 0 <? refreshRateMs then (F64.of_int refreshRateMs / 1000)%Q
    else interval in
  let minInterval := GetMinimumInterval (rateLimitTracker uas) tickerCount in
  if F64.gtb minInterval 0 && F64.ltb interval minInterval
  then minInterval
  else interval.

End Scheduler.

(** ** internal/utils/market_hours.go *)

Module MarketHours.

(** A [time.Time] in the market time zone, by its wall clock: the civil
    day (days since 1970-01-01 in the Eastern calendar) and the second
    of that day.  [Year()], [Month()] and [Day()] read the civil day;
    [time.Date(y, m, d, hh, mm, ss, 0, MARKET_TIMEZONE)] builds the time
    with that civil day and that second of day. *)
Record Time := mkTime {
  civilDay : Z;
  secondOfDay : Z
}.

(** [time.Unix(sec, 0).In(MARKET_TIMEZONE)]; [utcOffset] is the zone
    database: the Eastern offset from UTC, in seconds, at an instant. *)
Definition unixInET (utcOffset : Z -> Z) (sec : Z) : Time :=
  let wall := sec + utcOffset sec in
  {| civilDay := wall / 86400; secondOfDay := wall mod 86400 |}.

(** [t.Weekday()]: Sunday = 0, ..., Saturday = 6.  1970-01-01 was a
    Thursday. *)
Definition Weekday (t : Time) : Z := (civilDay t + 4) mod 7.

Definition Sunday : Z := 0.
Definition Friday : Z := 5.
Definition Saturday : Z := 6.

(** [t.AddDate(0, 0, days)]: same wall clock, [days] civil days later. *)
Definition AddDate (days : Z) (t : Time) : Time :=
  {| civilDay := civilDay t + days; secondOfDay := secondOfDay t |}.

(** [time.Date(t.Year(), t.Month(), t.Day(), hh, mm, 0, 0, MARKET_TIMEZONE)] *)
Definition atClock (t : Time) (hh mm : Z) : Time :=
  {| civilDay := civilDay t; secondOfDay := hh * 3600 + mm * 60 |}.

(** [t.Before(u)] for two times of the market zone.  Eastern offsets
    change at 02:00 local time only, so on every civil day the order of
    instants up to 08:30 is the order of the wall clocks. *)
Definition Before (t u : Time) : bool :=
  (civilDay t <? civilDay u)
  || ((civilDay t =? civilDay u) && (secondOfDay t <? secondOfDay u)).

Definition IsWeekend (date : Time) : bool :=
  let weekday := Weekday date in
  (weekday =? Saturday) || (weekday =? Sunday).

Definition GetLastTradingDay (date : Time) : Time :=
  let weekday := Weekday date in
  if weekday =? Saturday then AddDate (-1) date
  else if weekday =? Sunday then AddDate (-2) date
  else date.

Definition GetMarketDateForDate (date : Time) : Time :=
  (* First, handle weekend dates (use last Friday) *)
  if IsWeekend date then GetLastTradingDay date
  else
    let rolloverTime := atClock date 8 30 in
    if Before date rolloverTime then AddDate (-1) date
    else date.

End MarketHours.

(** ** internal/database/writer.go *)

Module Writer.
Import MarketHours Dyn.

Record PendingWrite := mkPendingWrite {
  Ticker : string;
  Timestamp : Q;
  Scalars : gmap string value;
  Profiles : gmap string value;
  Date : Time
}.

(** config.FileWriteCountThresholdCollection and
    config.FileWriteIntervalCollectionSec *)
Definition FileWriteCountThresholdCollection : Z := 5.
Definition FileWriteIntervalCollectionSec : Q := 2.

Record DataWriter := mkDataWriter {
  pendingWrites : gmap string (list PendingWrite);
  firstPendingTime : gmap string Q;
  lastFlushTime : gmap string Q;
  DataDirectory : string
}.

Definition len {A} (l : list A) : Z := Z.of_nat (length l).

(** [dw.pendingWrites[ticker]]: a missing key reads as the nil slice. *)
Definition pendingOf (dw : DataWriter) (ticker : string) : list PendingWrite :=
  default [] (pendingWrites dw !! ticker).

(** *** WriteDataEntry *)

Definition isMetadataKey (key : string) : bool :=
  bool_decide (key = "profiles") || bool_decide (key = "timestamp")
  || bool_decide (key = "ticker") || bool_decide (key = "_response_headers")
  || bool_decide (key = "_response_time").

(** [case []interface{}, map[string]interface{}] *)
Definition isProfileValue (v : value) : bool :=
  match v with
  | VArray _ | VMap _ => true
  | _ => false
  end.

(** [v == nil || v == 0 || v == 0.0 || v == false], or [v] is the empty
    string *)
Definition isZeroValue (v : value) : bool :=
  match v with
  | VNil => true
  | VInt n => n =? 0
  | VFloat x => Qeq_bool x 0
  | VString s => bool_decide (s = EmptyString)
  | VBool b => negb b
  | _ => false
  end.

(** The two maps built by the loop over [data]: distinct keys are
    written to distinct slots, so the iteration order of the Go map does
    not matter and the loop is a pair of filters. *)
Definition extractScalars (data : gmap string value) : gmap string value :=
  filter (fun kv => isMetadataKey kv.1 = false
                    ∧ isProfileValue kv.2 = false
                    ∧ isZeroValue kv.2 = false) data.

Definition extractProfiles (data : gmap string value) : gmap string value :=
  let profiles :=
    match data !! "profiles" with
    | Some (VMap prof) => prof
    | _ => ∅
    end in
  filter (fun kv => isMetadataKey kv.1 = false
                    ∧ isProfileValue kv.2 = true) data ∪ profiles.

(** The date stored in a pending write: the market date of the row's
    own timestamp, at midnight. *)
Definition entryDateOf (utcOffset : Z -> Z) (timestamp : Q) : Time :=
  let timestampET := unixInET utcOffset (F64.to_int timestamp) in
  let entryDate := GetMarketDateForDate timestampET in
  atClock entryDate 0 0.

Definition shouldFlush (now : Q) (ticker : string) (isActive : bool)
    (dw : DataWriter) : bool :=
  let pendingCount := len (pendingOf dw ticker) in
  if pendingCount =? 0 then false
  else if isActive then true
  else if FileWriteCountThresholdCollection <=? pendingCount then true
  else
    match firstPendingTime dw !! ticker with
    | None => true
    | Some firstPending =>
        F64.geb (now - firstPending)%Q FileWriteIntervalCollectionSec
    end.

(** The result of a call: the writer afterwards, the returned [error]
    ([None] is [nil]) and whether a flush goroutine was started. *)
Record WriteResult := mkWriteResult {
  writer_after : DataWriter;
  returned_error : option string;
  flush_spawned : bool
}.

Definition WriteDataEntry (utcOffset : Z -> Z) (now : Q)
    (ticker : string) (timestamp : Q) (data : gmap string value)
    (isActive : bool) (dw : DataWriter) : WriteResult :=
  let scalars := extractScalars data in
  let profiles := extractProfiles data in
  let entryDate := entryDateOf utcOffset timestamp in
  let pending :=
    pendingOf dw ticker
    ++ [mkPendingWrite ticker timestamp scalars profiles entryDate] in
  let pendingCount := len pending in
  let hasFlushHistory := bool_decide (is_Some (lastFlushTime dw !! ticker)) in
  let firstPending :=
    if pendingCount =? 1 then <[ticker := now]> (firstPendingTime dw)
    else firstPendingTime dw in
  let dw :=
    mkDataWriter (<[ticker := pending]> (pendingWrites dw)) firstPending
                 (lastFlushTime dw) (DataDirectory dw) in
  let flush :=
    if negb hasFlushHistory then true
    else shouldFlush now ticker isActive dw in
  {| writer_after := dw; returned_error := None; flush_spawned := flush |}.

(** *** deduplicateWrites *)

(** [for j := a; j < b; j++ { body }] *)
Definition for_range {S} (a b : nat) (body : nat -> S -> S) (s : S) : S :=
  foldl (fun s j => body j s) s (seq a (b - a)).

(** [sorted[i], sorted[j] = sorted[j], sorted[i]] *)
Definition swap {A} (i j : nat) (sorted : list A) : list A :=
  match sorted !! i, sorted !! j with
  | Some a, Some b => <[i := b]> (<[j := a]> sorted)
  | _, _ => sorted
  end.

(** [if sorted[i].Timestamp > sorted[j].Timestamp { swap }] *)
Definition compareSwap (i j : nat) (sorted : list PendingWrite)
    : list PendingWrite :=
  match sorted !! i, sorted !! j with
  | Some a, Some b =>
      if F64.gtb (Timestamp a) (Timestamp b) then swap i j sorted else sorted
  | _, _ => sorted
  end.

(** The two nested loops of the exchange sort. *)
Definition sortByTimestamp (writes : list PendingWrite) : list PendingWrite :=
  let n := length writes in
  for_range 0 (n - 1)
    (fun i sorted => for_range (i + 1) n (fun j sorted => compareSwap i j sorted) sorted)
    writes.

(** [i < len(sorted)-1 && sorted[i+1].Timestamp - sorted[i].Timestamp <= tolerance] *)
Definition withinToleranceOfNext (tolerance : Q) (sorted : list PendingWrite)
    (i : nat) : bool :=
  match sorted !! i, sorted !! (i + 1)%nat with
  | Some w, Some next =>
      F64.leb (Timestamp next - Timestamp w)%Q tolerance
  | _, _ => false
  end.

Definition deduplicateWrites (writes : list PendingWrite) (tolerance : Q)
    : list PendingWrite :=
  if len writes =? 0 then writes
  else
    let sorted := sortByTimestamp writes in
    for_range 0 (length sorted)
      (fun i result =>
         if withinToleranceOfNext tolerance sorted i then result
         else
           match sorted !! i with
           | Some w => result ++ [w]
           | None => result
           end)
      [].

(** *** getDBPath, flushDate and FlushTicker *)

(** A database path [<dataDir> <MM.DD.YYYY>/<ticker>.db]; the directory
    date is kept as a time rather than printed. *)
Record DBPath := mkDBPath {
  dataDir : string;
  dirDate : Time;
  dbFile : string
}.

Definition getDBPath (dw : DataWriter) (ticker : string) (date : Time) : DBPath :=
  let dataDir :=
    if decide (DataDirectory dw = EmptyString) then "Tickers" else DataDirectory dw in
  let marketDate :=
    if IsWeekend date then GetLastTradingDay date else date in
  {| dataDir := dataDir; dirDate := marketDate; dbFile := ticker +:+ ".db" |}.

(** The tolerance constant of [flushDate]. *)
Definition tolerance : Q := 1 # 10.

Section WithDatabase.

(** Everything [flushDate] does with the SQL engine after it has the
    path and the deduplicated rows (connection, schema, transaction,
    inserts, commit): [None] when it all succeeds, the error
    otherwise. *)
Variable dbStore : DBPath -> list PendingWrite -> option string.

(** The order in which [range] visits a Go map. *)
Variable rangeOrder :
  gmap Z (list PendingWrite) -> list (Z * list PendingWrite).

Definition flushDate (dw : DataWriter) (ticker : string) (date : Time)
    (writes : list PendingWrite) : option string :=
  let writes := deduplicateWrites writes tolerance in
  let dbPath := getDBPath dw ticker date in
  dbStore dbPath writes.

(** [byDate[date] = append(byDate[date], write)]; the key is the
    write's date at midnight, that is its civil day. *)
Definition groupByDate (pending : list PendingWrite)
    : gmap Z (list PendingWrite) :=
  foldl (fun byDate write =>
           let date := civilDay (Date write) in
           <[date := default [] (byDate !! date) ++ [write]]> byDate)
        ∅ pending.

Record FlushResult := mkFlushResult {
  flush_writer : DataWriter;
  flush_error : option string;
  (** the groups handed to a [flushDate] that succeeded *)
  flush_done : list (list PendingWrite)
}.

(** The loop [for date, writes := range byDate] with its early
    return. *)
Fixpoint flushGroups (dw : DataWriter) (ticker : string)
    (groups : list (Z * list PendingWrite))
    (done : list (list PendingWrite)) : FlushResult :=
  match groups with
  | [] => mkFlushResult dw None done
  | (date, writes) :: rest =>
      match flushDate dw ticker (mkTime date 0) writes with
      | Some err =>
          (* Re-add failed writes *)
          let dw :=
            mkDataWriter
              (<[ticker := pendingOf dw ticker ++ writes]> (pendingWrites dw))
              (firstPendingTime dw) (lastFlushTime dw) (DataDirectory dw) in
          mkFlushResult dw (Some err) done
      | None => flushGroups dw ticker rest (done ++ [writes])
      end
  end.

Definition FlushTicker (now : Q) (ticker : string) (dw : DataWriter)
    : FlushResult :=
  let pending := pendingOf dw ticker in
  if len pending =? 0 then mkFlushResult dw None []
  else
    (* Clear pending writes and reset timing *)
    let dw :=
      mkDataWriter (<[ticker := []]> (pendingWrites dw))
                   (delete ticker (firstPendingTime dw))
                   (<[ticker := now]> (lastFlushTime dw))
                   (DataDirectory dw) in
    let byDate := groupByDate pending in
    flushGroups dw ticker (rangeOrder byDate) [].

End WithDatabase.

End Writer.

(** ** internal/coordinator/write_queue.go *)

Module WriteQueue.
Import Dyn.

Record WriteTask := mkWriteTask {
  Ticker : string;
  Timestamp : Q;
  Data : gmap string value;
  Priority : Z
}.

Record PriorityWriteQueue := mkQueue {
  pendingWrites : gmap string WriteTask
}.

Definition NewPriorityWriteQueue : PriorityWriteQueue :=
  {| pendingWrites := ∅ |}.

(** The critical section of [Enqueue]; the call then starts
    [go pwq.processTask(ticker)]. *)
Definition Enqueue (ticker : string) (timestamp : Q)
    (data : gmap string value) (priority : Z)
    (pwq : PriorityWriteQueue) : PriorityWriteQueue :=
  {| pendingWrites :=
       <[ticker := mkWriteTask ticker timestamp data priority]>
         (pendingWrites pwq) |}.

(** The critical section of [processTask]: the task taken, if there is
    one, and the queue without it. *)
Definition takeTask (ticker : string) (pwq : PriorityWriteQueue)
    : option WriteTask * PriorityWriteQueue :=
  match pendingWrites pwq !! ticker with
  | None => (None, pwq)
  | Some task => (Some task, {| pendingWrites := delete ticker (pendingWrites pwq) |})
  end.

Definition GetPendingCount (pwq : PriorityWriteQueue) : Z :=
  Z.of_nat (size (pendingWrites pwq)).

Definition maxRetries : Z := 3.

(** [retryDelays], in milliseconds *)
Definition retryDelays : list Z := [100; 500; 1000].

(** What the rest of [processTask] did. *)
Record Dispatch (W : Type) := mkDispatch {
  writer_after : W;
  (** calls of [WriteDataEntry], the fallback included *)
  write_calls : nat;
  (** every non-nil error a call returned, in order *)
  errors_seen : list string;
  (** the [time.Sleep] delays, in milliseconds *)
  slept : list Z;
  fallback_used : bool;
  flush_scheduled : bool
}.
Arguments mkDispatch {W}.
Arguments writer_after {W}.
Arguments write_calls {W}.
Arguments errors_seen {W}.
Arguments slept {W}.
Arguments fallback_used {W}.
Arguments flush_scheduled {W}.

Section WithWriter.

(** The data writer behind the queue: its state and its
    [WriteDataEntry(ticker, timestamp, data, isActive)]. *)
Context {W : Type}.
Variable WriteDataEntry :
  string -> Q -> gmap string value -> bool -> W -> W * option string.

(** The loop [for attempt := 0; attempt < maxRetries; attempt++]: the
    writer afterwards, [lastErr], the number of calls, and the sleeps. *)
Fixpoint writeAttempts (remaining : nat) (attempt : Z) (task : WriteTask)
    (isActive : bool) (w : W) (lastErr : option string)
    : W * option string * nat * list string * list Z :=
  match remaining with
  | O => (w, lastErr, O, [], [])
  | S remaining =>
      match WriteDataEntry (Ticker task) (Timestamp task) (Data task) isActive w with
      | (w, None) => (* Success: break *) (w, lastErr, 1%nat, [], [])
      | (w, Some err) =>
          let delay :=
            if attempt <? maxRetries - 1
            then [default 0 (retryDelays !! Z.to_nat attempt)]
            else [] in
          let '(w, lastErr, calls, errs, sleeps) :=
            writeAttempts remaining (attempt + 1) task isActive w (Some err) in
          (w, lastErr, S calls, err :: errs, delay ++ sleeps)
      end
  end.

(** [processTask] after it has taken [task] from the queue. *)
Definition writeTask (task : WriteTask) (w : W) : Dispatch W :=
  let isActive := Priority task =? 0 in
  let '(w, lastErr, calls, errs, sleeps) :=
    writeAttempts (Z.to_nat maxRetries) 0 task isActive w None in
  match lastErr with
  | Some _ =>
      (* synchronous fallback *)
      match WriteDataEntry (Ticker task) (Timestamp task) (Data task) isActive w with
      | (w, Some err) =>
          mkDispatch w (S calls) (errs ++ [err]) sleeps true false
      | (w, None) =>
          mkDispatch w (S calls) errs sleeps true isActive
      end
  | None => mkDispatch w calls errs sleeps false isActive
  end.

Definition processTask (ticker : string) (pwq : PriorityWriteQueue) (w : W)
    : PriorityWriteQueue * option (Dispatch W) :=
  match takeTask ticker pwq with
  | (None, pwq) => (pwq, None)
  | (Some task, pwq) => (pwq, Some (writeTask task w))
  end.

End WithWriter.

(** The operations on the pending map, as the lock serialises them. *)
Inductive op :=
| OpEnqueue (ticker : string) (timestamp : Q) (data : gmap string value)
            (priority : Z)
| OpDispatch (ticker : string).

Definition step (pwq : PriorityWriteQueue) (o : op) : PriorityWriteQueue :=
  match o with
  | OpEnqueue ticker timestamp data priority =>
      Enqueue ticker timestamp data priority pwq
  | OpDispatch ticker => (takeTask ticker pwq).2
  end.

Definition run (ops : list op) (pwq : PriorityWriteQueue) : PriorityWriteQueue :=
  foldl step pwq ops.

End WriteQueue.

(** ** internal/coordinator: the data-collection coordinator *)

Module Coordinator.
Import Dyn.

Record QueryPlanItem := mkPlanItem {
  Ticker : string;
  Endpoints : list string
}.

(** [api.Query]: the pair (ticker, endpoint); it is a map key. *)
Definition Query : Type := string * string.
Definition QueryTicker (q : Query) : string := q.1.
Definition QueryEndpoint (q : Query) : string := q.2.

(** A [map[string]interface{}] variable: [None] is the nil map, [Some m]
    an allocated map with the entries [m]. *)
Definition GoMap : Type := option (gmap string value).

Record DataCollectionCoordinator := mkCoordinator {
  scheduler : Scheduler.UnifiedAdaptiveScheduler;
  writeQueue : WriteQueue.PriorityWriteQueue;
  tickersInProgress : gmap string bool
}.

(** [scheduler.RecordFetch(ticker)] *)
Definition RecordFetch (now : Q) (ticker : string)
    (uas : Scheduler.UnifiedAdaptiveScheduler) : Scheduler.UnifiedAdaptiveScheduler :=
  Scheduler.mkScheduler (Scheduler.rateLimitTracker uas)
    (<[ticker := now]> (Scheduler.lastFetchTimes uas))
    (Scheduler.enabledTickers uas) (Scheduler.settings uas).

Definition isResponseMetadata (key : string) : bool :=
  bool_decide (key = "_response_headers") || bool_decide (key = "_response_time").

(** The loop [for key, value := range result] that merges one response
    into the ticker's map; the keys are distinct, so its order is
    immaterial. *)
Definition mergeResult (result data : gmap string value) : gmap string value :=
  filter (fun kv => isResponseMetadata kv.1 = false) result ∪ data.

(** One round of the loop [for query, result := range results].  Writing
    to the nil map of a ticker that is not in [tickerData] panics
    ([None]). *)
Definition aggregateOne (tickerData : gmap string GoMap)
    (entry : Query * GoMap) : option (gmap string GoMap) :=
  match entry.2 with
  | None => Some tickerData
  | Some result =>
      let ticker := QueryTicker entry.1 in
      match tickerData !! ticker with
      | Some (Some data) =>
          Some (<[ticker := Some (mergeResult result data)]> tickerData)
      | _ =>
          if decide (filter (fun kv => isResponseMetadata kv.1 = false) result = ∅)
          then Some tickerData
          else None
      end
  end.

(** [results] is the content of the Go map in the order [range] visits
    it. *)
Definition aggregateResults (plan : list QueryPlanItem)
    (results : list (Query * GoMap)) : option (gmap string GoMap) :=
  (* Initialize ticker data structures *)
  let tickerData : gmap string GoMap :=
    foldl (fun tickerData item =>
             match tickerData !! Ticker item with
             | Some _ => tickerData
             | None => <[Ticker item := Some ∅]> tickerData
             end) ∅ plan in
  (* Aggregate results *)
  foldl (fun acc entry => tickerData ← acc; aggregateOne tickerData entry)
        (Some tickerData) results.

(** What one call did to the coordinator, and the [Enqueue] calls it
    made, in order. *)
Record Outcome := mkOutcome {
  coordinator_after : DataCollectionCoordinator;
  enqueued : list WriteQueue.WriteTask
}.

Definition ProcessCompletedTickerData (now : Q) (shuttingDown : bool)
    (openCharts : list Scheduler.chartItem)
    (ticker : string) (data : gmap string value)
    (dcc : DataCollectionCoordinator) : Outcome :=
  let currentTime := now in
  let dcc :=
    mkCoordinator (RecordFetch now ticker (scheduler dcc)) (writeQueue dcc)
                  (tickersInProgress dcc) in
  let timestampSeconds :=
    match data !! "timestamp" with
    | Some (VFloat apiTimestamp) =>
        if F64.gtb apiTimestamp 10000000000
        then (apiTimestamp / 1000)%Q
        else apiTimestamp
    | _ => currentTime
    end in
  if shuttingDown then mkOutcome dcc []
  else
    let priority :=
      if Scheduler.inOpenCharts ticker openCharts then 0 else 1 in
    let pwq := WriteQueue.Enqueue ticker timestampSeconds data priority (writeQueue dcc) in
    mkOutcome (mkCoordinator (scheduler dcc) pwq (tickersInProgress dcc))
              [WriteQueue.mkWriteTask ticker timestampSeconds data priority].

Section WithCollaborators.

Variable BuildOptimizedPlan : list string -> list QueryPlanItem.
Variable ValidateAndFilterQueries : list QueryPlanItem -> list Query.

(** [FetchEndpoint(endpoint, ticker)]: the pair (result, err) *)
Variable FetchEndpoint : string -> string -> GoMap * option string.

(** The order in which [range] visits the two maps. *)
Variable rangeResults : gmap Query GoMap -> list (Query * GoMap).
Variable rangeTickers : gmap string GoMap -> list (string * GoMap).

(** The fan-out: every worker stores its outcome under the mutex. *)
Definition fetchAll (validatedQueries : list Query)
    : gmap Query GoMap * gmap Query string :=
  foldl (fun maps q =>
           match FetchEndpoint (QueryEndpoint q) (QueryTicker q) with
           | (_, Some err) => (maps.1, <[q := err]> maps.2)
           | (result, None) => (<[q := result]> maps.1, maps.2)
           end) (∅, ∅) validatedQueries.

(** The loop [for ticker, data := range tickerData]. *)
Fixpoint processTickers (now : Q) (shuttingDown : bool)
    (openCharts : list Scheduler.chartItem)
    (tickerData : list (string * GoMap))
    (dcc : DataCollectionCoordinator) : Outcome :=
  match tickerData with
  | [] => mkOutcome dcc []
  | (ticker, data) :: rest =>
      match data with
      | Some data =>
          let o := ProcessCompletedTickerData now shuttingDown openCharts ticker data dcc in
          let o' := processTickers now shuttingDown openCharts rest (coordinator_after o) in
          mkOutcome (coordinator_after o') (enqueued o ++ enqueued o')
      | None =>
          (* "No data collected" *)
          processTickers now shuttingDown openCharts rest dcc
      end
  end.

(** [shuttingDownAtStart] is what [getShuttingDown()] answers at the top
    of the batch, [shuttingDown] what it answers afterwards.  [None] is a
    panic.  Logging and the bookkeeping of the optional health check are
    left out. *)
Definition ProcessTickerBatch (now : Q) (shuttingDownAtStart shuttingDown : bool)
    (openCharts : list Scheduler.chartItem) (tickers : list string)
    (dcc : DataCollectionCoordinator) : option Outcome :=
  if decide (length tickers = 0%nat) then Some (mkOutcome dcc [])
  else if shuttingDownAtStart then Some (mkOutcome dcc [])
  else
    let plan := BuildOptimizedPlan tickers in
    if decide (length plan = 0%nat) then Some (mkOutcome dcc [])
    else
      let validatedQueries := ValidateAndFilterQueries plan in
      (* Track tickers in progress *)
      let inProgress :=
        foldl (fun m item => <[Ticker item := true]> m) (tickersInProgress dcc) plan in
      let dcc := mkCoordinator (scheduler dcc) (writeQueue dcc) inProgress in
      (* Execute queries in parallel *)
      let '(results, errors) := fetchAll validatedQueries in
      (* Aggregate results by ticker *)
      tickerData ← aggregateResults plan (rangeResults results);
      (* Process each ticker's data *)
      let o := processTickers now shuttingDown openCharts (rangeTickers tickerData) dcc in
      (* Clean up in-progress tracking *)
      let dcc := coordinator_after o in
      let inProgress :=
        foldl (fun m item => delete (Ticker item) m) (tickersInProgress dcc) plan in
      Some (mkOutcome (mkCoordinator (scheduler dcc) (writeQueue dcc) inProgress)
                      (enqueued o)).

End WithCollaborators.

End Coordinator.

(** ** internal/api: the HTTP endpoint client *)

Module Client.
Import Dyn.

Inductive error :=
| (** [fmt.Errorf], with the wrapped error if there is one *)
  Errorf (message : string) (wrapped : option string)
| RequestError (Endpoint : string) (StatusCode : Z) (Message : string)
               (OriginalError : option string)
| SubscriptionError (Endpoint : string) (Message : string)
| RateLimitError (Endpoint : string) (Message : string) (RetryAfter : string).

(** An [*http.Response]: the status, the headers, and what
    [io.ReadAll(resp.Body)] returns (the bytes read and the error). *)
Record Response := mkResponse {
  StatusCode : Z;
  Header : gmap string string;
  Body : string;
  BodyError : option string
}.

(** [resp.Header.Get(name)]: the empty string when the header is absent. *)
Definition HeaderGet (resp : Response) (name : string) : string :=
  default EmptyString (Header resp !! name).

Definition maxRetries : Z := 3.

(** [retryDelays], in milliseconds *)
Definition retryDelays : list Z := [100; 500; 1000].

Definition rateLimitHeaderNames : list string :=
  ["X-RateLimit-Limit"; "X-RateLimit-Remaining"; "X-RateLimit-Reset"; "Retry-After"].

(** [bodyStr[:200]] when [len(bodyStr) > 200] *)
Definition truncateBody (bodyStr : string) : string :=
  if (200 <? String.length bodyStr)%nat then String.substring 0 200 bodyStr
  else bodyStr.

Record FetchResult := mkFetchResult {
  data : option (gmap string value);
  err : option error;
  (** calls of [httpClient.Get] *)
  attempts : nat;
  (** the [time.Sleep] delays, in milliseconds *)
  slept : list Z
}.

Section WithTransport.

(** The table [Endpoints] of URL templates. *)
Variable Endpoints : gmap string string.

(** [fmt.Sprintf(urlTemplate, c.baseURL, ticker, c.apiKey)] *)
Variable buildURL : string -> string -> string.

(** [c.httpClient.Get(url)] at the n-th call of this fetch: a transport
    error or a response. *)
Variable httpGet : nat -> string -> string + Response.

(** [json.Unmarshal(body, &data)]: the parse error or the object. *)
Variable jsonUnmarshal : string -> string + gmap string value.

(** [time.Since(requestStartTime).Seconds()] of the n-th call *)
Variable responseTime : nat -> Q.

Definition delayBefore (attempt : Z) : list Z :=
  [default 0 (retryDelays !! Z.to_nat attempt)].

(** The part of one iteration after a response has arrived with status
    200 and its body has been read. *)
Definition parseBody (endpoint ticker : string) (n : nat) (resp : Response)
    : option (gmap string value) * option error :=
  match jsonUnmarshal (Body resp) with
  | inl parseErr =>
      (None,
       Some (RequestError endpoint 0
               ("Invalid JSON response from " +:+ endpoint +:+ " for " +:+ ticker
                  +:+ ": " +:+ parseErr)
               (Some parseErr)))
  | inr data =>
      let rateLimitHeaders : gmap string string :=
        foldl (fun m headerName =>
                 let val := HeaderGet resp headerName in
                 if decide (val = EmptyString) then m else <[headerName := val]> m)
              ∅ rateLimitHeaderNames in
      let data :=
        if decide (size rateLimitHeaders = 0%nat) then data
        else <["_response_headers" := VStrMap rateLimitHeaders]> data in
      let data := <["_response_time" := VFloat (responseTime n)]> data in
      (Some data, None)
  end.

(** The loop [for attempt := 0; attempt < maxRetries; attempt++];
    [remaining] counts the iterations left. *)
Fixpoint fetchLoop (remaining : nat) (attempt : Z) (n : nat)
    (endpoint ticker url : string) (lastErr : option string) : FetchResult :=
  match remaining with
  | O =>
      mkFetchResult None
        (Some (Errorf ("failed after " +:+ pretty maxRetries +:+ " attempts") lastErr))
        O []
  | S remaining =>
      let retry (e : string) (final : error) : FetchResult :=
        if attempt <? maxRetries - 1 then
          let r := fetchLoop remaining (attempt + 1) (S n) endpoint ticker url (Some e) in
          mkFetchResult (data r) (err r) (S (attempts r)) (delayBefore attempt ++ slept r)
        else mkFetchResult None (Some final) 1 [] in
      match httpGet n url with
      | inl e =>
          retry e (Errorf ("request error after " +:+ pretty maxRetries +:+ " attempts")
                          (Some e))
      | inr resp =>
          if StatusCode resp =? 401 then
            mkFetchResult None
              (Some (SubscriptionError endpoint
                       ("Unauthorized access to " +:+ endpoint +:+ " for " +:+ ticker
                          +:+ ". Check API key and subscription tier.")))
              1 []
          else if StatusCode resp =? 403 then
            mkFetchResult None
              (Some (SubscriptionError endpoint
                       ("Access forbidden to " +:+ endpoint +:+ " for " +:+ ticker
                          +:+ ". This endpoint requires a subscription tier you don't have.")))
              1 []
          else if StatusCode resp =? 429 then
            mkFetchResult None
              (Some (RateLimitError endpoint
                       ("Rate limit exceeded for " +:+ endpoint +:+ " on " +:+ ticker)
                       (HeaderGet resp "Retry-After")))
              1 []
          else if negb (StatusCode resp =? 200) then
            mkFetchResult None
              (Some (RequestError endpoint (StatusCode resp)
                       ("HTTP " +:+ pretty (StatusCode resp) +:+ " error fetching "
                          +:+ endpoint +:+ " for " +:+ ticker +:+ ": "
                          +:+ truncateBody (Body resp))
                       None))
              1 []
          else
            match BodyError resp with
            | Some e => retry e (Errorf "failed to read response body" (Some e))
            | None =>
                let '(d, e) := parseBody endpoint ticker n resp in
                mkFetchResult d e 1 []
            end
      end
  end.

Definition FetchEndpoint (endpoint ticker : string) : FetchResult :=
  match Endpoints !! endpoint with
  | None =>
      mkFetchResult None (Some (Errorf ("unknown endpoint: " +:+ endpoint) None)) O []
  | Some urlTemplate =>
      let url := buildURL urlTemplate ticker in
      fetchLoop (Z.to_nat maxRetries) 0 O endpoint ticker url None
  end.

End WithTransport.

End Client.

(* ================================================================== *)
(** * Part II.  The vocabulary of the specification                    *)
(* ================================================================== *)

(** Order on [Q] is decidable. *)

#[global] Instance Qlt_decision (x y : Q) : Decision (x < y)%Q :=
  match Qlt_le_dec x y with
  | left H => left H
  | right H => right (Qle_not_lt _ _ H)
  end.

#[global] Instance Qle_decision (x y : Q) : Decision (x <= y)%Q :=
  match Qlt_le_dec y x with
  | left H => right (Qlt_not_le _ _ H)
  | right H => left H
  end.

Module SchedulerSpec.
Import RateLimit Scheduler.

(** The three priority classes. *)
Inductive priority := High | Medium | Low.

Definition priority_of_code (p : Z) : priority :=
  if p =? 0 then High else if p =? 1 then Medium else Low.

Definition code_of_priority (p : priority) : Z :=
  match p with High => 0 | Medium => 1 | Low => 2 end.

(** The interval table of the specification, in seconds, by priority
    and by the count [N] of enabled tickers. *)
Definition interval_table (p : priority) (N : Z) : Q :=
  match p with
  | High => 1
  | Medium =>
      if N <=? 5 then 6
      else if (6 <=? N) && (N <=? 20) then 10
      else 15
  | Low =>
      if N <=? 5 then 16
      else if (6 <=? N) && (N <=? 20) then 22
      else 30
  end%Q.

(** The [refresh_rate_ms] override of a ticker, when its configuration
    has one. *)
Definition refresh_override (uas : UnifiedAdaptiveScheduler) (ticker : string)
    : option Z :=
  cfg ← lookupConfig uas ticker; RefreshRateMs cfg.

(** The interval as the specification composes it: the table value,
    replaced by max(override, 1000)/1000 under a non-zero override,
    then raised to the tracker's floor when the floor is positive. *)
Definition specified_interval (uas : UnifiedAdaptiveScheduler)
    (ticker : string) (openCharts : list chartItem) : Q :=
  let N := len (enabledTickers uas) in
  let table :=
    interval_table (priority_of_code (getTickerPriority uas ticker openCharts)) N in
  let overridden :=
    match refresh_override uas ticker with
    | Some override =>
        if decide (override = 0) then table
        else (inject_Z (Z.max override 1000) / 1000)%Q
    | None => table
    end in
  let floor := GetMinimumInterval (rateLimitTracker uas) N in
  if decide (0 < floor)%Q then Qmax overridden floor else overridden.

(** The displayed set: the ticker strings among the open charts. *)
Definition displayed (openCharts : list chartItem) (ticker : string) : Prop :=
  ChartString ticker ∈ openCharts.

#[global] Instance displayed_dec openCharts ticker :
  Decision (displayed openCharts ticker).
Proof. unfold displayed. apply _. Defined.

(** The class that a configuration record names explicitly. *)
Definition explicit_class (cfg : TickerConfig) : option priority :=
  if String.eqb (Priority cfg) "high" then Some High
  else if String.eqb (Priority cfg) "low" then Some Low
  else None.

(** The four rules of the specification, first match wins. *)
Definition specified_priority (uas : UnifiedAdaptiveScheduler)
    (ticker : string) (openCharts : list chartItem) : priority :=
  if decide (displayed openCharts ticker) then High
  else
    match lookupConfig uas ticker ≫= explicit_class with
    | Some p => p
    | None => if decide (ticker ∈ enabledTickers uas) then Medium else Low
    end.

(** The rules the code applies: a ticker that has a configuration
    record takes its class from the record alone, and every value other
    than "high" and "low" means medium; only a ticker without a record is
    classified by the enabled-for-collection set. *)
Definition applied_priority (uas : UnifiedAdaptiveScheduler)
    (ticker : string) (openCharts : list chartItem) : priority :=
  if decide (displayed openCharts ticker) then High
  else
    match lookupConfig uas ticker with
    | Some cfg => default Medium (explicit_class cfg)
    | None => if decide (ticker ∈ enabledTickers uas) then Medium else Low
    end.

(** A scheduler whose settings hold one record, for a ticker that is
    neither displayed nor enabled for collection. *)
Definition parked_scheduler : UnifiedAdaptiveScheduler :=
  {| rateLimitTracker := NewRateLimitTracker;
     lastFetchTimes := ∅;
     enabledTickers := ["SPX"];
     settings :=
       Some {| TickerConfigs :=
                 Some {[ "QQQ" := mkTickerConfig false false "medium" None ]} |} |}.

(** Scenario 5 of the specification: SPX is configured low, 25 tickers
    are enabled, and a chart of SPX is open. *)
Definition charted_scheduler : UnifiedAdaptiveScheduler :=
  {| rateLimitTracker := NewRateLimitTracker;
     lastFetchTimes := ∅;
     enabledTickers := repeat "SPX" 25;
     settings :=
       Some {| TickerConfigs :=
                 Some {[ "SPX" := mkTickerConfig true true "low" None ]} |} |}.

End SchedulerSpec.

Module RateLimitSpec.
Import RateLimit.

(** A tracker that has recorded 2000 requests at second 100. *)
Definition busy_tracker : RateLimitTracker :=
  with_requestTimes (repeat (100 : Q) 2000) NewRateLimitTracker.

End RateLimitSpec.

Module MarketDaySpec.
Import MarketHours Writer.

(** 08:30, as a second of the day *)
Definition rollover_second : Z := 8 * 3600 + 30 * 60.

(** The market day of an Eastern wall-clock time: the previous calendar
    day strictly before 08:30, the same calendar day from 08:30 on. *)
Definition market_day (t : Time) : Z :=
  if secondOfDay t <? rollover_second then civilDay t - 1 else civilDay t.

Definition weekday_of (day : Z) : Z := (day + 4) mod 7.

(** A Saturday or a Sunday is stored under the preceding Friday. *)
Definition storage_day (day : Z) : Z :=
  if weekday_of day =? Saturday then day - 1
  else if weekday_of day =? Sunday then day - 2
  else day.

(** Monday to Friday *)
Definition is_weekday (day : Z) : Prop := 1 <= weekday_of day <= 5.

(** The path [FlushTicker] and [flushDate] compute for a pending write:
    the write is grouped under its date at midnight, and that date goes
    to [getDBPath]. *)
Definition pathOfWrite (dw : DataWriter) (w : PendingWrite) : DBPath :=
  getDBPath dw (Ticker w) (mkTime (civilDay (Date w)) 0).

End MarketDaySpec.

Module DedupSpec.
Import Writer.











End DedupSpec.

Module FlushSpec.
Import MarketHours Writer.

(** Two rows of one ticker on two market days (Thursday 2026-01-15 and
    Friday 2026-01-16, as civil days 20468 and 20469). *)
Definition thursday_row : PendingWrite :=
  mkPendingWrite "SPX" 1768500000 ∅ ∅ (mkTime 20468 0).

Definition friday_row : PendingWrite :=
  mkPendingWrite "SPX" 1768586400 ∅ ∅ (mkTime 20469 0).

Definition two_day_writer : DataWriter :=
  {| pendingWrites := {[ "SPX" := [thursday_row; friday_row] ]};
     firstPendingTime := {[ "SPX" := 1768586400%Q ]};
     lastFlushTime := ∅;
     DataDirectory := "Tickers" |}.

(** A storage layer that is down: every flush fails. *)
Definition unavailable (path : DBPath) (rows : list PendingWrite) : option string :=
  Some "failed to get connection".

(** A write that was pending before the flush and is nowhere after it:
    not handed to a successful per-date flush, not pending again. *)
Definition lost (before : DataWriter) (ticker : string) (r : FlushResult)
    (w : PendingWrite) : Prop :=
  (w ∈ pendingOf before ticker)
  /\ (w ∉ concat (flush_done r))
  /\ (w ∉ pendingOf (flush_writer r) ticker).

End FlushSpec.

Module WriteQueueSpec.
Import WriteQueue.

(** An operation on the pending task of [ticker]. *)
Definition concerns (ticker : string) (o : op) : Prop :=
  match o with
  | OpEnqueue t _ _ _ => t = ticker
  | OpDispatch t => t = ticker
  end.

#[global] Instance concerns_dec ticker o : Decision (concerns ticker o).
Proof. destruct o; simpl; apply _. Defined.

(** The task of the most recent [Enqueue] for [ticker] that no later
    dispatch of [ticker] has removed. *)
Definition outstanding (ops : list op) (ticker : string) : option WriteTask :=
  match last (filter (concerns ticker) ops) with
  | Some (OpEnqueue t timestamp data priority) =>
      Some (mkWriteTask t timestamp data priority)
  | _ => None
  end.

(** The pending tasks that belong to [ticker]. *)
Definition tasksOf (ticker : string) (pwq : PriorityWriteQueue)
    : list (string * WriteTask) :=
  filter (fun kv => Ticker kv.2 = ticker) (map_to_list (pendingWrites pwq)).

(** Every task is filed under its own ticker. *)
Definition well_keyed (pwq : PriorityWriteQueue) : Prop :=
  forall k task, pendingWrites pwq !! k = Some task -> Ticker task = k.

(** The data writer as the queue sees it. *)
Definition dataWriterEntry (utcOffset : Z -> Z) (now : Q)
    (ticker : string) (timestamp : Q) (data : gmap string Dyn.value)
    (isActive : bool) (dw : Writer.DataWriter)
    : Writer.DataWriter * option string :=
  let r := Writer.WriteDataEntry utcOffset now ticker timestamp data isActive dw in
  (Writer.writer_after r, Writer.returned_error r).

(** A writer that refuses every entry, to exercise the retry path. *)
Definition refusingEntry (ticker : string) (timestamp : Q)
    (data : gmap string Dyn.value) (isActive : bool) (calls : nat)
    : nat * option string :=
  (S calls, Some "database is locked").

End WriteQueueSpec.

Module BatchSpec.
Import Coordinator.

(** A one-ticker plan whose only fetch fails. *)
Definition spy_plan (tickers : list string) : list QueryPlanItem :=
  [mkPlanItem "SPY" ["classic_zero"]].

Definition spy_queries (plan : list QueryPlanItem) : list Query :=
  [("SPY", "classic_zero")].

Definition failing_fetch (endpoint ticker : string) : GoMap * option string :=
  (None, Some "request error after 3 attempts").

Definition idle_coordinator : DataCollectionCoordinator :=
  {| scheduler :=
       Scheduler.mkScheduler RateLimit.NewRateLimitTracker ∅ ["SPY"] None;
     writeQueue := WriteQueue.NewPriorityWriteQueue;
     tickersInProgress := ∅ |}.

(** No value of the aggregated map is the nil map. *)
Definition all_allocated (tickerData : gmap string GoMap) : Prop :=
  forall ticker data, tickerData !! ticker = Some data -> is_Some data.

End BatchSpec.

Module ClientSpec.
Import Client.

(** A transport error: the request failed, or the body of a 200
    response could not be read. *)
Definition transport_error (o : string + Response) : Prop :=
  match o with
  | inl _ => True
  | inr resp => StatusCode resp = 200 /\ is_Some (BodyError resp)
  end.


(** The text of a request error for a status other than 200, 401, 403
    and 429. *)
Definition http_message (endpoint ticker : string) (code : Z) (excerpt : string)
    : string :=
  "HTTP " +:+ pretty code +:+ " error fetching " +:+ endpoint +:+ " for "
    +:+ ticker +:+ ": " +:+ excerpt.

(** The error that the specification assigns to a response. *)
Definition status_mapping (jsonUnmarshal : string -> string + gmap string Dyn.value)
    (endpoint ticker : string) (resp : Response) (e : option error) : Prop :=
  (StatusCode resp = 401 \/ StatusCode resp = 403 ->
     exists msg, e = Some (SubscriptionError endpoint msg))
  /\ (StatusCode resp = 429 ->
        exists msg,
          e = Some (RateLimitError endpoint msg (HeaderGet resp "Retry-After")))
  /\ (StatusCode resp <> 200 -> StatusCode resp <> 401 ->
      StatusCode resp <> 403 -> StatusCode resp <> 429 ->
        exists excerpt,
          e = Some (RequestError endpoint (StatusCode resp)
                      (http_message endpoint ticker (StatusCode resp) excerpt) None)
          /\ (String.length excerpt <= 200)%nat
          /\ String.prefix excerpt (Body resp) = true)
  /\ (StatusCode resp = 200 -> BodyError resp = None ->
      forall parseErr, jsonUnmarshal (Body resp) = inl parseErr ->
        exists msg, e = Some (RequestError endpoint 0 msg (Some parseErr))).


(** What a run of the loop that starts at call number [n] guarantees:
    it makes at least one call and at most three in all, sleeps by the
    table of delays, goes round again after transport errors only, and
    maps the response it stops at. *)
Definition loop_contract (httpGet : nat -> string -> string + Response)
    (jsonUnmarshal : string -> string + gmap string Dyn.value)
    (endpoint ticker url : string) (n : nat)
    (r : FetchResult) : Prop :=
  (1 <= attempts r)%nat
  /\ (n + attempts r <= 3)%nat
  /\ slept r = take (attempts r - 1) (drop n retryDelays)
  /\ (forall k, (n <= k)%nat -> (S k < n + attempts r)%nat ->
        transport_error (httpGet k url))
  /\ (forall k resp, (n <= k < n + attempts r)%nat ->
        httpGet k url = inr resp -> ~ transport_error (inr resp) ->
        (n + attempts r = S k)%nat
        /\ status_mapping jsonUnmarshal endpoint ticker resp (err r)).

(** A transport that fails twice and then answers 429. *)
Definition flaky_transport (n : nat) (url : string) : string + Response :=
  match n with
  | O | S O => inl "connection reset by peer"
  | _ => inr (mkResponse 429 {[ "Retry-After" := "5" ]} EmptyString None)
  end.

(** A transport that answers 503 with a body of 300 bytes. *)
Definition overloaded_transport (n : nat) (url : string) : string + Response :=
  inr (mkResponse 503 ∅ (String.concat EmptyString (repeat "x" 300)) None).

Definition one_endpoint : gmap string string :=
  {[ "classic_zero" := "%s/%s/classic/zero?key=%s" ]}.

Definition url_of (urlTemplate ticker : string) : string :=
  urlTemplate +:+ ticker.

Definition no_json (body : string) : string + gmap string Dyn.value :=
  inl "unexpected end of JSON input".

End ClientSpec.

(* ================================================================== *)
(** * Part III.  Properties                                            *)
(* ================================================================== *)

(** ** float64 comparisons *)

Lemma ltb_lt (x y : Q) : F64.ltb x y = true <-> (x < y)%Q.
Proof.
  unfold F64.ltb. rewrite Qlt_alt. destruct (x ?= y)%Q; split; congruence.
Qed.

Lemma ltb_ge (x y : Q) : F64.ltb x y = false <-> (y <= x)%Q.
Proof.
  rewrite <- not_true_iff_false, ltb_lt. split.
  - apply Qnot_lt_le.
  - intros H1 H2. exact (Qlt_not_le _ _ H2 H1).
Qed.

Lemma gtb_gt (x y : Q) : F64.gtb x y = true <-> (y < x)%Q.
Proof. apply ltb_lt. Qed.


Lemma leb_le (x y : Q) : F64.leb x y = true <-> (x <= y)%Q.
Proof. unfold F64.leb. rewrite negb_true_iff. apply ltb_ge. Qed.


(** ** The adaptive scheduler *)

Section SchedulerFacts.
Import RateLimit Scheduler SchedulerSpec.

Lemma inOpenCharts_displayed ticker openCharts :
  inOpenCharts ticker openCharts = true <-> displayed openCharts ticker.
Proof.
  unfold displayed. induction openCharts as [|item rest IH]; simpl.
  - split; [discriminate | intros H; inversion H].
  - rewrite elem_of_cons. destruct item as [s|].
    + destruct (decide (s = ticker)) as [->|Hne].
      * split; auto.
      * rewrite IH. split; [auto | intros [Heq|H]; [congruence | exact H]].
    + rewrite IH. split; [auto | intros [Heq|H]; [discriminate | exact H]].
Qed.

Lemma inEnabled_elem_of ticker enabled :
  inEnabled ticker enabled = true <-> ticker ∈ enabled.
Proof.
  induction enabled as [|t rest IH]; simpl.
  - split; [discriminate | intros H; inversion H].
  - rewrite elem_of_cons. destruct (decide (t = ticker)) as [->|Hne].
    + split; auto.
    + rewrite IH. split; [auto | intros [Heq|H]; [congruence | exact H]].
Qed.

Lemma explicit_class_cases cfg :
  (Priority cfg = "high" /\ explicit_class cfg = Some High)
  \/ (Priority cfg <> "high" /\ Priority cfg = "low" /\ explicit_class cfg = Some Low)
  \/ (Priority cfg <> "high" /\ Priority cfg <> "low" /\ explicit_class cfg = None).
Proof.
  unfold explicit_class.
  destruct (String.eqb_spec (Priority cfg) "high") as [H1|H1]; [left; auto|].
  destruct (String.eqb_spec (Priority cfg) "low") as [H2|H2]; right; [left|right]; auto.
Qed.

(** The priority the code returns, in terms of sets and of the
    configuration record. *)
Lemma getTickerPriority_applied uas ticker openCharts :
  getTickerPriority uas ticker openCharts
  = code_of_priority (applied_priority uas ticker openCharts).
Proof.
  unfold getTickerPriority, applied_priority.
  destruct (inOpenCharts ticker openCharts) eqn:Hd.
  - apply inOpenCharts_displayed in Hd. rewrite decide_True by exact Hd. reflexivity.
  - rewrite decide_False
      by (intros H; apply inOpenCharts_displayed in H; congruence).
    destruct (lookupConfig uas ticker) as [cfg|].
    + destruct (explicit_class_cases cfg) as [[H1 ->]|[(H1 & H2 & ->)|(H1 & H2 & ->)]].
      * rewrite decide_True by exact H1. reflexivity.
      * rewrite decide_False, decide_True by assumption. reflexivity.
      * rewrite !decide_False by assumption. reflexivity.
    + destruct (inEnabled ticker (enabledTickers uas)) eqn:He.
      * apply inEnabled_elem_of in He. rewrite decide_True by exact He. reflexivity.
      * rewrite decide_False
          by (intros H; apply inEnabled_elem_of in H; congruence).
        reflexivity.
Qed.

(** C4, as the code has it: the scheduler's priority is that of the
    first matching rule among: displayed in an open chart, high; a
    configuration record exists, the class it names ("high", "low", and
    medium for any other value); in the enabled-for-collection set,
    medium; otherwise low. *)
Theorem getTickerPriority_first_match
    (uas : UnifiedAdaptiveScheduler) (ticker : string)
    (openCharts : list chartItem) :
  priority_of_code (getTickerPriority uas ticker openCharts)
  = applied_priority uas ticker openCharts.
Proof.
  rewrite getTickerPriority_applied.
  destruct (applied_priority uas ticker openCharts); reflexivity.
Qed.

(** C4, as the specification words it, fails: a ticker with a record of
    priority "medium" that is neither displayed nor enabled for
    collection is medium for the code and low for the four rules. *)
Lemma getTickerPriority_not_specified :
  getTickerPriority parked_scheduler "QQQ" [] = 1
  /\ specified_priority parked_scheduler "QQQ" [] = Low
  /\ priority_of_code (getTickerPriority parked_scheduler "QQQ" [])
     <> specified_priority parked_scheduler "QQQ" [].
Proof.
  assert (H1 : getTickerPriority parked_scheduler "QQQ" [] = 1)
    by (vm_compute; reflexivity).
  assert (H2 : specified_priority parked_scheduler "QQQ" [] = Low)
    by (vm_compute; reflexivity).
  split; [exact H1 | split; [exact H2 |]].
  rewrite H1, H2. discriminate.
Qed.

Lemma getTickerRefreshRate_override uas ticker :
  getTickerRefreshRate uas ticker
  = match refresh_override uas ticker with
    | Some override => if decide (override = 0) then 0 else Z.max override 1000
    | None => 0
    end.
Proof.
  unfold getTickerRefreshRate, refresh_override, lookupConfig.
  destruct (settings uas) as [s|]; [|reflexivity].
  destruct (TickerConfigs s) as [m|]; [|reflexivity].
  destruct (m !! ticker) as [cfg|]; [|reflexivity]. simpl.
  destruct (RefreshRateMs cfg) as [rate|]; [|reflexivity].
  destruct (decide (rate = 0)) as [->|Hne]; [reflexivity|].
  destruct (Z.eqb_spec rate 0) as [|_]; [contradiction|].
  destruct (Z.ltb_spec rate 1000); [rewrite Z.max_r by lia | rewrite Z.max_l by lia];
    reflexivity.
Qed.

Lemma table_lookup (p N : Z) :
  (if p =? 0 then 1
   else if p =? 1 then
     if N <=? 5 then 6 else if N <=? 20 then 10 else 15
   else
     if N <=? 5 then 16 else if N <=? 20 then 22 else 30)%Q
  = interval_table (priority_of_code p) N.
Proof.
  unfold interval_table, priority_of_code.
  destruct (p =? 0); [reflexivity|].
  destruct (p =? 1);
    destruct (Z.leb_spec N 5); try reflexivity;
    destruct (Z.leb_spec N 20); destruct (Z.leb_spec 6 N); simpl;
    reflexivity || lia.
Qed.

Lemma floor_applied (interval floor : Q) :
  (if F64.gtb floor 0 && F64.ltb interval floor then floor else interval)
  = if decide (0 < floor)%Q then Qmax interval floor else interval.
Proof.
  destruct (decide (0 < floor)%Q) as [Hpos|Hnpos].
  - apply gtb_gt in Hpos. rewrite Hpos. simpl.
    unfold F64.ltb, Qmax, GenericMinMax.gmax.
    destruct (interval ?= floor)%Q; reflexivity.
  - destruct (F64.gtb floor 0) eqn:Hg; [|reflexivity].
    apply gtb_gt in Hg. contradiction.
Qed.

(** C1: the interval is the table value of the ticker's priority for
    the enabled-ticker count N, replaced by max(refresh_rate_ms, 1000) /
    1000 under a non-zero override, then raised to the tracker's
    GetMinimumInterval(N) when that floor is positive. *)
Theorem CalculateInterval_specified
    (uas : UnifiedAdaptiveScheduler) (ticker : string)
    (openCharts : list chartItem) :
  CalculateInterval uas ticker openCharts
  = specified_interval uas ticker openCharts.
Proof.
  unfold CalculateInterval, specified_interval.
  rewrite floor_applied, table_lookup, getTickerRefreshRate_override.
  destruct (refresh_override uas ticker) as [override|]; [|reflexivity].
  destruct (decide (override = 0)); [reflexivity|].
  destruct (Z.ltb_spec 0 (Z.max override 1000)); [reflexivity | lia].
Qed.

(** Scenario 5: displayed, 1 s; not displayed, the low interval of the
    band above 20 tickers. *)
Example CalculateInterval_displayed_low :
  CalculateInterval charted_scheduler "SPX" [ChartString "SPX"] = 1%Q
  /\ CalculateInterval charted_scheduler "SPX" [] = 30%Q.
Proof. split; vm_compute; reflexivity. Qed.

End SchedulerFacts.

(** ** The rate-limit tracker *)

Section RateLimitFacts.
Import RateLimit RateLimitSpec.

Variable parseInt : string -> Z.
Variable parseFloat : string -> Q.

Lemma updateFromHeaders_requestTimes headers rlt :
  requestTimes (updateFromHeaders parseInt parseFloat headers rlt)
  = requestTimes rlt.
Proof.
  unfold updateFromHeaders.
  repeat match goal with
         | |- context [match ?m !! ?k with _ => _ end] => destruct (m !! k)
         | |- context [if ?b then _ else _] => destruct b
         end; reflexivity.
Qed.

Lemma requestTimes_flag (b1 b2 : bool) rlt :
  requestTimes (if b1 then with_isRateLimited true rlt
                else if b2 then with_isRateLimited true rlt
                else with_isRateLimited false rlt)
  = requestTimes rlt.
Proof. destruct b1, b2; reflexivity. Qed.

(** The history after a call: the old history and the new time, cut to
    the window when they are more than 2000. *)
Lemma RecordRequest_requestTimes requestTime success headers rlt :
  requestTimes (RecordRequest parseInt parseFloat requestTime success headers rlt)
  = let times := requestTimes rlt ++ [requestTime] in
    if 2000 <? len times
    then filter (fun t => (requestTime - rateLimitWindow rlt < t)%Q) times
    else times.
Proof.
  unfold RecordRequest. cbv zeta.
  rewrite requestTimes_flag.
  assert (Hcut :
    filter (fun t => F64.gtb t (requestTime - rateLimitWindow rlt) = true)
           (requestTimes rlt ++ [requestTime])
    = filter (fun t => (requestTime - rateLimitWindow rlt < t)%Q)
             (requestTimes rlt ++ [requestTime])).
  { apply list_filter_iff. intros t. apply gtb_gt. }
  destruct headers; [rewrite updateFromHeaders_requestTimes|]; simpl;
    rewrite Hcut; reflexivity.
Qed.

(** When the history is trimmed, what stays lies within the last window
    before the recorded time. *)
Lemma RecordRequest_trims_to_window requestTime success headers rlt :
  2000 < len (requestTimes rlt ++ [requestTime]) ->
  Forall (fun t => (requestTime - rateLimitWindow rlt < t)%Q)
    (requestTimes (RecordRequest parseInt parseFloat requestTime success headers rlt)).
Proof.
  intros Hlen. rewrite RecordRequest_requestTimes. simpl.
  destruct (Z.ltb_spec 2000 (len (requestTimes rlt ++ [requestTime]))); [|lia].
  apply Forall_forall. intros t Ht.
  apply list_elem_of_filter in Ht. tauto.
Qed.

(** C9: with 2000 requests recorded within the last
    window, one more request leaves 2001 timestamps in the history; the
    trim removes nothing because every entry is inside the window. *)
Theorem RecordRequest_exceeds_cap :
  len (requestTimes
         (RecordRequest parseInt parseFloat 100 true None busy_tracker))
  = 2001.
Proof.
  rewrite RecordRequest_requestTimes. vm_compute. reflexivity.
Qed.

End RateLimitFacts.

(** ** The market day of a row *)

Section MarketDayFacts.
Import MarketHours Writer MarketDaySpec.

(** Linear arithmetic with division and remainder by constants. *)
Ltac lia_mod := Z.div_mod_to_equations; lia.

Lemma unixInET_second_range utcOffset sec :
  0 <= secondOfDay (unixInET utcOffset sec) < 86400.
Proof. unfold unixInET. simpl. apply Z.mod_pos_bound. lia. Qed.

Lemma Before_rollover (t : Time) :
  Before t (atClock t 8 30) = (secondOfDay t <? rollover_second).
Proof.
  unfold Before, atClock, rollover_second. simpl.
  rewrite Z.ltb_irrefl, Z.eqb_refl. reflexivity.
Qed.

(** Where the code differs from the two-stage description: on a
    Saturday or Sunday [GetMarketDateForDate] answers the Friday at once,
    whatever the clock. *)
Lemma GetMarketDateForDate_day (t : Time) :
  civilDay (GetMarketDateForDate t)
  = if IsWeekend t then storage_day (civilDay t) else market_day t.
Proof.
  unfold GetMarketDateForDate, market_day, storage_day.
  destruct (IsWeekend t) eqn:Hw.
  - unfold GetLastTradingDay, weekday_of, Weekday.
    destruct ((civilDay t + 4) mod 7 =? Saturday); [simpl; lia|].
    destruct ((civilDay t + 4) mod 7 =? Sunday); simpl; lia.
  - rewrite Before_rollover.
    destruct (secondOfDay t <? rollover_second); simpl; lia.
Qed.

Lemma getDBPath_day dw ticker (date : Time) :
  civilDay (dirDate (getDBPath dw ticker date)) = storage_day (civilDay date).
Proof.
  unfold getDBPath, storage_day, IsWeekend, GetLastTradingDay, weekday_of, Weekday.
  simpl.
  destruct ((civilDay date + 4) mod 7 =? Saturday) eqn:Hsat; simpl; [lia|].
  destruct ((civilDay date + 4) mod 7 =? Sunday) eqn:Hsun; simpl; lia.
Qed.

Lemma storage_day_is_weekday (day : Z) : is_weekday (storage_day day).
Proof.
  unfold is_weekday, storage_day, weekday_of, Saturday, Sunday.
  destruct (Z.eqb_spec ((day + 4) mod 7) 6); [lia_mod|].
  destruct (Z.eqb_spec ((day + 4) mod 7) 0); lia_mod.
Qed.

Lemma storage_day_idempotent (day : Z) :
  storage_day (storage_day day) = storage_day day.
Proof.
  pose proof (storage_day_is_weekday day) as H.
  unfold is_weekday in H. unfold storage_day at 1.
  unfold Saturday, Sunday.
  destruct (Z.eqb_spec (weekday_of (storage_day day)) 6); [lia|].
  destruct (Z.eqb_spec (weekday_of (storage_day day)) 0); [lia|reflexivity].
Qed.

(** The weekend shortcut and the rollover meet at the same Friday. *)
Lemma storage_day_of_market_day (t : Time) :
  storage_day (civilDay (GetMarketDateForDate t)) = storage_day (market_day t).
Proof.
  rewrite GetMarketDateForDate_day.
  destruct (IsWeekend t) eqn:Hw; [|reflexivity].
  rewrite storage_day_idempotent.
  unfold IsWeekend, Weekday in Hw.
  unfold market_day, storage_day, weekday_of, Saturday, Sunday in *.
  destruct (secondOfDay t <? rollover_second); [|reflexivity].
  destruct (Z.eqb_spec ((civilDay t + 4) mod 7) 6);
    destruct (Z.eqb_spec ((civilDay t + 4) mod 7) 0);
    destruct (Z.eqb_spec ((civilDay t - 1 + 4) mod 7) 6);
    destruct (Z.eqb_spec ((civilDay t - 1 + 4) mod 7) 0);
    simpl in Hw; try discriminate; lia_mod.
Qed.

Lemma WriteDataEntry_appends utcOffset now ticker timestamp data isActive dw :
  pendingOf (writer_after (WriteDataEntry utcOffset now ticker timestamp data isActive dw))
            ticker
  = pendingOf dw ticker
    ++ [mkPendingWrite ticker timestamp (extractScalars data) (extractProfiles data)
                       (entryDateOf utcOffset timestamp)].
Proof.
  unfold WriteDataEntry, pendingOf. simpl. rewrite lookup_insert_eq. reflexivity.
Qed.

(** C6: the write that [WriteDataEntry] queues for a row is stored in
    the directory of the row's market day (the previous calendar day when
    the Eastern clock of the timestamp is strictly before 08:30, the same
    day otherwise), moved to the preceding Friday when that day is a
    Saturday or a Sunday; the directory date is always a weekday. *)
Theorem write_directory_is_market_weekday
    (utcOffset : Z -> Z) (now : Q) (ticker : string) (timestamp : Q)
    (data : gmap string Dyn.value) (isActive : bool) (dw : DataWriter) :
  let dw' := writer_after (WriteDataEntry utcOffset now ticker timestamp data isActive dw) in
  let clock := unixInET utcOffset (F64.to_int timestamp) in
  exists w : PendingWrite,
    last (pendingOf dw' ticker) = Some w
    /\ Timestamp w = timestamp
    /\ civilDay (dirDate (pathOfWrite dw' w)) = storage_day (market_day clock)
    /\ is_weekday (civilDay (dirDate (pathOfWrite dw' w))).
Proof.
  intros dw' clock. subst dw'. rewrite WriteDataEntry_appends.
  eexists. split; [apply last_snoc|]. split; [reflexivity|].
  unfold pathOfWrite. rewrite getDBPath_day. simpl.
  unfold entryDateOf. simpl. fold clock.
  rewrite storage_day_of_market_day.
  split; [reflexivity | apply storage_day_is_weekday].
Qed.

End MarketDayFacts.

(** ** The priority write queue *)

Section WriteQueueFacts.
Import WriteQueue WriteQueueSpec.

Lemma run_snoc ops o pwq : run (ops ++ [o]) pwq = step (run ops pwq) o.
Proof. unfold run. apply foldl_snoc. Qed.

Lemma outstanding_snoc_other ops o ticker :
  ~ concerns ticker o -> outstanding (ops ++ [o]) ticker = outstanding ops ticker.
Proof.
  intros H. unfold outstanding. rewrite filter_app, filter_cons_False by exact H.
  rewrite filter_nil, app_nil_r. reflexivity.
Qed.

Lemma outstanding_snoc_same ops o ticker :
  concerns ticker o ->
  outstanding (ops ++ [o]) ticker
  = match o with
    | OpEnqueue t timestamp data priority =>
        Some (mkWriteTask t timestamp data priority)
    | OpDispatch _ => None
    end.
Proof.
  intros H. unfold outstanding. rewrite filter_app, filter_cons_True by exact H.
  rewrite filter_nil, last_snoc. reflexivity.
Qed.

Lemma pending_is_outstanding ops ticker :
  pendingWrites (run ops NewPriorityWriteQueue) !! ticker = outstanding ops ticker.
Proof.
  induction ops as [|o ops IH] using rev_ind; [reflexivity|].
  rewrite run_snoc.
  destruct (decide (concerns ticker o)) as [Hc|Hc].
  - rewrite outstanding_snoc_same by exact Hc.
    destruct o as [t timestamp data priority|t]; simpl in Hc; subst t; simpl.
    + apply lookup_insert_eq.
    + unfold takeTask.
      destruct (pendingWrites (run ops NewPriorityWriteQueue) !! ticker) eqn:Hl;
        simpl; [apply lookup_delete_eq | exact Hl].
  - rewrite outstanding_snoc_other by exact Hc. rewrite <- IH.
    destruct o as [t timestamp data priority|t]; simpl in Hc; simpl.
    + apply lookup_insert_ne. exact Hc.
    + unfold takeTask.
      destruct (pendingWrites (run ops NewPriorityWriteQueue) !! t);
        simpl; [apply lookup_delete_ne; exact Hc | reflexivity].
Qed.

Lemma step_well_keyed pwq o : well_keyed pwq -> well_keyed (step pwq o).
Proof.
  intros Hwk k task. destruct o as [t timestamp data priority|t]; simpl.
  - destruct (decide (t = k)) as [->|Hne].
    + rewrite lookup_insert_eq. intros [= <-]. reflexivity.
    + rewrite lookup_insert_ne by exact Hne. apply Hwk.
  - unfold takeTask. destruct (pendingWrites pwq !! t); simpl; [|apply Hwk].
    destruct (decide (t = k)) as [->|Hne].
    + rewrite lookup_delete_eq. discriminate.
    + rewrite lookup_delete_ne by exact Hne. apply Hwk.
Qed.

Lemma run_well_keyed ops : well_keyed (run ops NewPriorityWriteQueue).
Proof.
  induction ops as [|o ops IH] using rev_ind.
  - intros k task. simpl. rewrite lookup_empty. discriminate.
  - rewrite run_snoc. apply step_well_keyed, IH.
Qed.

Lemma tasksOf_at_most_one ticker pwq :
  well_keyed pwq -> (length (tasksOf ticker pwq) <= 1)%nat.
Proof.
  intros Hwk.
  assert (Hall : forall kv, kv ∈ tasksOf ticker pwq ->
                   exists task, pendingWrites pwq !! ticker = Some task
                                /\ kv = (ticker, task)).
  { intros [k task] Hin. apply list_elem_of_filter in Hin as [Ht Hin].
    apply elem_of_map_to_list in Hin. simpl in Ht.
    pose proof (Hwk _ _ Hin) as Hk. rewrite Ht in Hk. subst k. eauto. }
  assert (Hnd : NoDup (tasksOf ticker pwq))
    by (apply NoDup_filter, NoDup_map_to_list).
  destruct (tasksOf ticker pwq) as [|a [|b rest]]; simpl; try lia.
  destruct (Hall a) as (ta & Ha & ->); [left|].
  destruct (Hall b) as (tb & Hb & ->); [right; left|].
  rewrite Ha in Hb. injection Hb as <-.
  apply NoDup_cons in Hnd as [Hnotin _]. exfalso. apply Hnotin. left.
Qed.

(** C7: after any sequence of enqueues and dispatches on a new queue,
    the pending entry of a ticker is the task of its most recent enqueue
    that no later dispatch removed, or nothing; and the queue never holds
    two tasks of one ticker. *)
Theorem queue_latest_wins (ops : list op) (ticker : string) :
  pendingWrites (run ops NewPriorityWriteQueue) !! ticker = outstanding ops ticker
  /\ (length (tasksOf ticker (run ops NewPriorityWriteQueue)) <= 1)%nat.
Proof.
  split.
  - apply pending_is_outstanding.
  - apply tasksOf_at_most_one, run_well_keyed.
Qed.

(** Scenario 6 of the specification: two enqueues for one ticker, the
    second survives. *)
Example enqueue_twice_keeps_second :
  pendingWrites
    (run [OpEnqueue "AAPL" 1000 ∅ 1; OpEnqueue "AAPL" (1000 + (2 # 1000)) ∅ 1]
         NewPriorityWriteQueue) !! "AAPL"
  = Some (mkWriteTask "AAPL" (1000 + (2 # 1000)) ∅ 1).
Proof. rewrite pending_is_outstanding. reflexivity. Qed.

(** *** The retry loop around WriteDataEntry *)

Section AnyWriter.
Context {W : Type}.
Variable WriteDataEntry :
  string -> Q -> gmap string Dyn.value -> bool -> W -> W * option string.

(** With a writer that returns nil, the loop stops at its first call and
    nothing of the retry machinery runs. *)
Lemma writeTask_of_infallible task w :
  (forall ticker timestamp data isActive w,
      (WriteDataEntry ticker timestamp data isActive w).2 = None) ->
  let d := writeTask WriteDataEntry task w in
  write_calls d = 1%nat /\ errors_seen d = [] /\ slept d = []
  /\ fallback_used d = false
  /\ writer_after d
     = (WriteDataEntry (Ticker task) (Timestamp task) (Data task)
                       (Priority task =? 0) w).1.
Proof.
  intros Hnil. unfold writeTask. simpl.
  pose proof (Hnil (Ticker task) (Timestamp task) (Data task) (Priority task =? 0) w)
    as H.
  destruct (WriteDataEntry _ _ _ _ w) as [w' e]. simpl in H. subst e.
  simpl. repeat split.
Qed.

End AnyWriter.

(** The machinery is live: a writer that fails every time is called
    three times, with sleeps of 100 and 500 ms, then once more by the
    synchronous fallback. *)
Example writeTask_of_refusing :
  let d := writeTask refusingEntry (mkWriteTask "SPX" 1000 ∅ 1) O in
  write_calls d = 4%nat /\ slept d = [100; 500] /\ fallback_used d = true
  /\ length (errors_seen d) = 4%nat.
Proof. vm_compute. repeat split. Qed.

(** C10: [WriteDataEntry] returns nil whatever its arguments and the
    state of the writer, so a dispatch calls it once and the retry loop
    and the synchronous fallback never see an error. *)
Theorem WriteDataEntry_never_fails
    (utcOffset : Z -> Z) (now : Q) (ticker : string) (timestamp : Q)
    (data : gmap string Dyn.value) (isActive : bool) (dw : Writer.DataWriter)
    (task : WriteTask) :
  Writer.returned_error
    (Writer.WriteDataEntry utcOffset now ticker timestamp data isActive dw) = None
  /\ let d := writeTask (dataWriterEntry utcOffset now) task dw in
     errors_seen d = [] /\ write_calls d = 1%nat /\ slept d = []
     /\ fallback_used d = false.
Proof.
  split; [reflexivity|].
  destruct (writeTask_of_infallible (dataWriterEntry utcOffset now) task dw)
    as (H1 & H2 & H3 & H4 & _); [reflexivity|].
  simpl. auto.
Qed.

End WriteQueueFacts.

(** ** Flushing a ticker *)

Section FlushFacts.
Import MarketHours Writer FlushSpec.

Variable dbStore : DBPath -> list PendingWrite -> option string.

(** What the loop over the date groups leaves behind: either every
    group was flushed, or the loop stopped at the first group whose flush
    failed, put that group back, and returned without visiting the
    groups after it. *)
Lemma flushGroups_outcome dw ticker groups done :
  let r := flushGroups dbStore dw ticker groups done in
  (flush_error r = None
   /\ flush_done r = done ++ (groups.*2)
   /\ flush_writer r = dw)
  \/ (exists before date writes after e,
        groups = before ++ (date, writes) :: after
        /\ flush_error r = Some e
        /\ flushDate dbStore dw ticker (mkTime date 0) writes = Some e
        /\ flush_done r = done ++ (before.*2)
        /\ pendingOf (flush_writer r) ticker = pendingOf dw ticker ++ writes).
Proof.
  revert done. induction groups as [|[date writes] rest IH]; intros done; simpl.
  - left. rewrite app_nil_r. auto.
  - destruct (flushDate dbStore dw ticker (mkTime date 0) writes) as [e|] eqn:Hf.
    + right. exists [], date, writes, rest, e. simpl.
      rewrite app_nil_r. repeat split; try assumption.
      unfold pendingOf at 1. simpl. rewrite lookup_insert_eq. reflexivity.
    + destruct (IH (done ++ [writes])) as [(H1 & H2 & H3)|H].
      * left. rewrite H1, H2, H3, <- app_assoc. auto.
      * destruct H as (before & d & ws & after & e & -> & H1 & H2 & H3 & H4).
        right. exists ((date, writes) :: before), d, ws, after, e.
        rewrite H1, H3, H4, <- app_assoc. auto.
Qed.

End FlushFacts.

Section FlushLoss.
Import MarketHours Writer FlushSpec.

Variable rangeOrder : gmap Z (list PendingWrite) -> list (Z * list PendingWrite).
Hypothesis rangeOrder_permutes : forall m, rangeOrder m ≡ₚ map_to_list m.

Lemma two_day_groups :
  rangeOrder (groupByDate (pendingOf two_day_writer "SPX"))
    = [(20468, [thursday_row]); (20469, [friday_row])]
  \/ rangeOrder (groupByDate (pendingOf two_day_writer "SPX"))
    = [(20469, [friday_row]); (20468, [thursday_row])].
Proof.
  pose proof (rangeOrder_permutes (groupByDate (pendingOf two_day_writer "SPX"))) as H.
  assert (Hl : map_to_list (groupByDate (pendingOf two_day_writer "SPX"))
               ≡ₚ [(20468, [thursday_row]); (20469, [friday_row])]).
  { vm_compute. apply perm_swap || reflexivity. }
  rewrite Hl in H. symmetry in H.
  apply Permutation_length_2_inv in H. exact H.
Qed.

(** C8: with writes of two market days pending and the storage layer
    down, whichever
    date group the loop visits first is put back and the error is
    returned, and the row of the other day is lost. *)
Theorem FlushTicker_drops_unvisited_groups (now : Q) :
  let r := FlushTicker unavailable rangeOrder now "SPX" two_day_writer in
  flush_error r = Some "failed to get connection"
  /\ exists w, lost two_day_writer "SPX" r w.
Proof.
  unfold FlushTicker.
  replace (len (pendingOf two_day_writer "SPX") =? 0) with false by reflexivity.
  cbv zeta.
  destruct two_day_groups as [-> | ->].
  - split; [reflexivity|]. exists friday_row. unfold lost. simpl.
    unfold pendingOf. simpl. rewrite !lookup_insert_eq. simpl.
    repeat split.
    + rewrite lookup_singleton_eq. simpl. rewrite !elem_of_cons. auto.
    + apply not_elem_of_nil.
    + intros H. apply list_elem_of_singleton in H. discriminate H.
  - split; [reflexivity|]. exists thursday_row. unfold lost. simpl.
    unfold pendingOf. simpl. rewrite !lookup_insert_eq. simpl.
    repeat split.
    + rewrite lookup_singleton_eq. simpl. rewrite !elem_of_cons. auto.
    + apply not_elem_of_nil.
    + intros H. apply list_elem_of_singleton in H. discriminate H.
Qed.

End FlushLoss.

(** The same, in the order in which stdpp lists a map. *)
Lemma FlushTicker_drops_unvisited_groups_listed :
  let r := Writer.FlushTicker FlushSpec.unavailable map_to_list 0
             "SPX" FlushSpec.two_day_writer in
  Writer.flush_error r = Some "failed to get connection"
  /\ exists w, FlushSpec.lost FlushSpec.two_day_writer "SPX" r w.
Proof.
  apply (FlushTicker_drops_unvisited_groups map_to_list).
  intros m. reflexivity.
Defined.

(** ** The coordinator's batch *)

Section BatchFacts.
Import Coordinator BatchSpec.

Lemma aggregateOne_allocated tickerData entry tickerData' :
  all_allocated tickerData ->
  aggregateOne tickerData entry = Some tickerData' ->
  all_allocated tickerData'.
Proof.
  unfold aggregateOne. intros Hall Hagg.
  destruct entry.2 as [result|]; [|injection Hagg as <-; exact Hall].
  destruct (tickerData !! QueryTicker entry.1) as [[data|]|] eqn:Hl.
  - injection Hagg as <-. intros t d.
    destruct (decide (QueryTicker entry.1 = t)) as [->|Hne].
    + rewrite lookup_insert_eq. intros [= <-]. eauto.
    + rewrite lookup_insert_ne by exact Hne. apply Hall.
  - destruct (decide _); [injection Hagg as <-; exact Hall | discriminate].
  - destruct (decide _); [injection Hagg as <-; exact Hall | discriminate].
Qed.

(** Every ticker of the plan gets an allocated map, and merging keeps
    it allocated: the test [data != nil] of the batch loop holds for
    every entry, whether or not any response was merged. *)
Lemma aggregateResults_allocated plan results tickerData :
  aggregateResults plan results = Some tickerData -> all_allocated tickerData.
Proof.
  unfold aggregateResults.
  set (init := foldl _ ∅ plan).
  assert (Hinit : all_allocated init).
  { subst init. induction plan as [|item plan IH] using rev_ind.
    - intros t d. simpl. rewrite lookup_empty. discriminate.
    - rewrite foldl_snoc.
      destruct (foldl _ ∅ plan !! Ticker item) eqn:Hl; [exact IH|].
      intros t d. destruct (decide (Ticker item = t)) as [->|Hne].
      + rewrite lookup_insert_eq. intros [= <-]. eauto.
      + rewrite lookup_insert_ne by exact Hne. apply IH. }
  clearbody init. revert tickerData.
  induction results as [|entry results IH] using rev_ind; intros tickerData.
  - simpl. intros [= <-]. exact Hinit.
  - rewrite foldl_snoc.
    destruct (foldl _ (Some init) results) as [td|]; simpl; [|discriminate].
    intros Hagg. eapply aggregateOne_allocated; [|exact Hagg]. apply IH. reflexivity.
Qed.

Variable rangeResults : gmap Query GoMap -> list (Query * GoMap).
Variable rangeTickers : gmap string GoMap -> list (string * GoMap).
Hypothesis rangeResults_permutes : forall m, rangeResults m ≡ₚ map_to_list m.
Hypothesis rangeTickers_permutes : forall m, rangeTickers m ≡ₚ map_to_list m.

(** C2: where every fetch of a ticker fails, the aggregated map of the
    ticker is empty but allocated, the branch for "no data" is not taken,
    and a write with no field is enqueued for the ticker. *)
Theorem ProcessTickerBatch_enqueues_empty_row (now : Q) :
  exists o,
    ProcessTickerBatch spy_plan spy_queries failing_fetch rangeResults rangeTickers
      now false false [] ["SPY"] idle_coordinator = Some o
    /\ enqueued o = [WriteQueue.mkWriteTask "SPY" now ∅ 1]
    /\ WriteQueue.pendingWrites (writeQueue (coordinator_after o)) !! "SPY"
       = Some (WriteQueue.mkWriteTask "SPY" now ∅ 1).
Proof.
  unfold ProcessTickerBatch. simpl.
  assert (Hr : rangeResults ∅ = []).
  { apply Permutation_nil_r. rewrite rangeResults_permutes, map_to_list_empty.
    reflexivity. }
  rewrite Hr. simpl. rewrite lookup_empty.
  assert (Ht : rangeTickers (<[ "SPY" := Some ∅ ]> ∅) = [("SPY", Some ∅)]).
  { apply Permutation_singleton_r.
    rewrite rangeTickers_permutes, insert_empty, map_to_list_singleton.
    reflexivity. }
  rewrite Ht. simpl.
  eexists. split; [reflexivity|]. simpl. split; [reflexivity|].
  apply lookup_insert_eq.
Qed.

End BatchFacts.

(** The same, in the order in which stdpp lists a map. *)
Lemma ProcessTickerBatch_enqueues_empty_row_listed :
  exists o,
    Coordinator.ProcessTickerBatch BatchSpec.spy_plan BatchSpec.spy_queries
      BatchSpec.failing_fetch map_to_list map_to_list
      1768500000 false false [] ["SPY"] BatchSpec.idle_coordinator = Some o
    /\ Coordinator.enqueued o = [WriteQueue.mkWriteTask "SPY" 1768500000 ∅ 1]
    /\ WriteQueue.pendingWrites
         (Coordinator.writeQueue (Coordinator.coordinator_after o)) !! "SPY"
       = Some (WriteQueue.mkWriteTask "SPY" 1768500000 ∅ 1).
Proof.
  apply (ProcessTickerBatch_enqueues_empty_row map_to_list map_to_list);
    intros m; reflexivity.
Defined.

(** ** The HTTP endpoint client *)

Section ClientFacts.
Import Client ClientSpec.

Lemma substring_length_le (n : nat) (s : string) :
  (String.length (String.substring 0 n s) <= n)%nat.
Proof.
  revert s. induction n as [|n IH]; intros [|c s]; simpl; try lia.
  specialize (IH s). lia.
Qed.

Lemma substring_prefix (n : nat) (s : string) :
  String.prefix (String.substring 0 n s) s = true.
Proof.
  revert s. induction n as [|n IH]; intros [|c s]; simpl; try reflexivity.
  destruct (Ascii.ascii_dec c c); [apply IH | congruence].
Qed.

Lemma prefix_refl (s : string) : String.prefix s s = true.
Proof.
  induction s as [|c s IH]; simpl; [reflexivity|].
  destruct (Ascii.ascii_dec c c); [exact IH | congruence].
Qed.

(** At most 200 bytes of the body, from its start. *)
Lemma truncateBody_excerpt (body : string) :
  (String.length (truncateBody body) <= 200)%nat
  /\ String.prefix (truncateBody body) body = true.
Proof.
  unfold truncateBody.
  destruct (Nat.ltb_spec 200 (String.length body)).
  - split; [apply substring_length_le | apply substring_prefix].
  - split; [assumption | apply prefix_refl].
Qed.

End ClientFacts.

Section FetchLoop.
Import Client ClientSpec.

Variable Endpoints : gmap string string.
Variable buildURL : string -> string -> string.
Variable httpGet : nat -> string -> string + Response.
Variable jsonUnmarshal : string -> string + gmap string Dyn.value.
Variable responseTime : nat -> Q.

Lemma contract_stop endpoint ticker url n r :
  (n <= 2)%nat -> attempts r = 1%nat -> slept r = [] ->
  (forall resp, httpGet n url = inr resp -> ~ transport_error (inr resp) ->
     status_mapping jsonUnmarshal endpoint ticker resp (err r)) ->
  loop_contract httpGet jsonUnmarshal endpoint ticker url n r.
Proof.
  intros Hn Ha Hs Hmap. unfold loop_contract. rewrite Ha, Hs.
  split; [lia|]. split; [lia|]. split; [reflexivity|].
  split; [intros; lia|].
  intros k resp Hk Hget Hnt.
  assert (k = n) as -> by lia. split; [lia|]. apply Hmap; assumption.
Qed.

Lemma contract_retry endpoint ticker url n r :
  (n < 2)%nat -> transport_error (httpGet n url) ->
  loop_contract httpGet jsonUnmarshal endpoint ticker url (S n) r ->
  loop_contract httpGet jsonUnmarshal endpoint ticker url n
    {| data := data r; err := err r; attempts := S (attempts r);
       slept := default 0 (retryDelays !! Z.to_nat (Z.of_nat n)) :: slept r |}.
Proof.
  intros Hn Hte (Ha & Hb & Hs & Ht & Hm). unfold loop_contract. simpl.
  split; [lia|]. split; [lia|]. split; [|split].
  - rewrite Hs, Nat2Z.id, Nat.sub_0_r.
    destruct (attempts r) as [|a]; [lia|]. simpl. rewrite Nat.sub_0_r.
    destruct n as [|[|n]]; [reflexivity | reflexivity | lia].
  - intros k Hk1 Hk2. destruct (decide (k = n)) as [->|Hne]; [exact Hte|].
    apply Ht; lia.
  - intros k resp Hk Hget Hnt. destruct (decide (k = n)) as [->|Hne].
    + rewrite Hget in Hte. contradiction.
    + destruct (Hm k resp) as [Hlast Hmap]; [lia | assumption | assumption |].
      split; [lia | exact Hmap].
Qed.

Lemma status_mapping_parse endpoint ticker n resp :
  StatusCode resp = 200 -> BodyError resp = None ->
  status_mapping jsonUnmarshal endpoint ticker resp
    (parseBody jsonUnmarshal responseTime endpoint ticker n resp).2.
Proof.
  intros Hs Hb. unfold status_mapping. repeat split; try lia.
  intros _ _ parseErr Hp. unfold parseBody. rewrite Hp. simpl. eauto.
Qed.

Lemma fetchLoop_contract endpoint ticker url remaining n lastErr :
  (remaining + n = 3)%nat -> (1 <= remaining)%nat ->
  loop_contract httpGet jsonUnmarshal endpoint ticker url n
    (fetchLoop httpGet jsonUnmarshal responseTime remaining (Z.of_nat n) n
               endpoint ticker url lastErr).
Proof.
  revert n lastErr. induction remaining as [|remaining IH]; intros n lastErr Hn Hr;
    [lia|].
  simpl.
  destruct (httpGet n url) as [e|resp] eqn:Hget.
  - (* the request failed *)
    destruct (Z.ltb_spec (Z.of_nat n) (maxRetries - 1)) as [Hlt|Hge];
      unfold maxRetries in *.
    + replace (Z.of_nat n + 1) with (Z.of_nat (S n)) by lia.
      apply contract_retry; [lia | rewrite Hget; exact I |].
      apply IH; lia.
    + apply contract_stop; try reflexivity; [lia|].
      intros resp Hresp. congruence.
  - destruct (Z.eqb_spec (StatusCode resp) 401) as [H401|H401].
    { apply contract_stop; try reflexivity; [lia|].
      intros resp' Hresp _; rewrite Hget in Hresp; injection Hresp as <-. unfold status_mapping.
      repeat split; intros; try lia; eauto. }
    destruct (Z.eqb_spec (StatusCode resp) 403) as [H403|H403].
    { apply contract_stop; try reflexivity; [lia|].
      intros resp' Hresp _; rewrite Hget in Hresp; injection Hresp as <-. unfold status_mapping.
      repeat split; intros; try lia; eauto. }
    destruct (Z.eqb_spec (StatusCode resp) 429) as [H429|H429].
    { apply contract_stop; try reflexivity; [lia|].
      intros resp' Hresp _; rewrite Hget in Hresp; injection Hresp as <-. unfold status_mapping.
      repeat split; intros; try lia; eauto. }
    destruct (Z.eqb_spec (StatusCode resp) 200) as [H200|H200]; simpl.
    + destruct (BodyError resp) as [e|] eqn:Hbody.
      * (* the body could not be read *)
        destruct (Z.ltb_spec (Z.of_nat n) (maxRetries - 1)) as [Hlt|Hge];
          unfold maxRetries in *.
        -- replace (Z.of_nat n + 1) with (Z.of_nat (S n)) by lia.
           apply contract_retry; [lia | |apply IH; lia].
           rewrite Hget. simpl. rewrite Hbody. eauto.
        -- apply contract_stop; try reflexivity; [lia|].
           intros resp' Hresp Hnt; rewrite Hget in Hresp; injection Hresp as <-. exfalso. apply Hnt. simpl.
           rewrite Hbody. eauto.
      * pose proof (status_mapping_parse endpoint ticker n resp H200 Hbody) as Hp.
        destruct (parseBody jsonUnmarshal responseTime endpoint ticker n resp)
          as [d e].
        apply contract_stop; try reflexivity; [lia|].
        intros resp' Hresp _; rewrite Hget in Hresp; injection Hresp as <-. exact Hp.
    + apply contract_stop; try reflexivity; [lia|].
      intros resp' Hresp _; rewrite Hget in Hresp; injection Hresp as <-. unfold status_mapping.
      repeat split; intros; try lia; try contradiction.
      exists (truncateBody (Body resp)).
      destruct (truncateBody_excerpt (Body resp)). auto.
Qed.


Lemma FetchEndpoint_attempts_and_sleeps (endpoint ticker : string) :
  let r := FetchEndpoint Endpoints buildURL httpGet jsonUnmarshal responseTime
             endpoint ticker in
  (attempts r <= 3)%nat /\ slept r = take (attempts r - 1) retryDelays.
Proof.
  unfold FetchEndpoint.
  destruct (Endpoints !! endpoint) as [urlTemplate|].
  - destruct (fetchLoop_contract endpoint ticker (buildURL urlTemplate ticker)
                3 0 None) as (Ha & Hb & Hs & _); [reflexivity | lia |].
    change (Z.of_nat 0) with 0 in *. cbv zeta.
    change (Z.to_nat maxRetries) with 3%nat.
    split; [lia | exact Hs].
  - simpl. split; [lia | reflexivity].
Qed.


(** The third entry of the table is never slept: after the third
    failure the fetch returns. *)
Lemma FetchEndpoint_sleeps (endpoint ticker : string) :
  let r := FetchEndpoint Endpoints buildURL httpGet jsonUnmarshal responseTime
             endpoint ticker in
  slept r = [] \/ slept r = [100] \/ slept r = [100; 500].
Proof.
  destruct (FetchEndpoint_attempts_and_sleeps endpoint ticker) as [Ha Hs].
  cbv zeta. rewrite Hs.
  destruct (attempts _) as [|[|[|[|n]]]]; simpl; auto. lia.
Qed.

End FetchLoop.

(** Two failed requests are retried after 100 and 500 ms; the 429 that
    follows is not retried and carries the Retry-After header. *)
Example FetchEndpoint_flaky_then_429 :
  let r := Client.FetchEndpoint ClientSpec.one_endpoint ClientSpec.url_of
             ClientSpec.flaky_transport ClientSpec.no_json (fun _ => 0%Q)
             "classic_zero" "SPX" in
  Client.attempts r = 3%nat /\ Client.slept r = [100; 500]
  /\ Client.err r
     = Some (Client.RateLimitError "classic_zero"
               "Rate limit exceeded for classic_zero on SPX" "5").
Proof. vm_compute. repeat split. Qed.

(** A 503 is answered at once, with the first 200 bytes of its body. *)
Example FetchEndpoint_503_truncates :
  let r := Client.FetchEndpoint ClientSpec.one_endpoint ClientSpec.url_of
             ClientSpec.overloaded_transport ClientSpec.no_json (fun _ => 0%Q)
             "classic_zero" "SPX" in
  Client.attempts r = 1%nat /\ Client.slept r = []
  /\ Client.err r
     = Some (Client.RequestError "classic_zero" 503
               (ClientSpec.http_message "classic_zero" "SPX" 503
                  (String.concat EmptyString (repeat "x" 200)))
               None).
Proof. vm_compute. repeat split. Qed.

(** ** Deduplication of the writes of a flush *)

Section LoopFacts.
Import Writer.


Lemma for_range_empty {S} (a b : nat) (body : nat -> S -> S) (s : S) :
  (b <= a)%nat -> for_range a b body s = s.
Proof.
  intros H. unfold for_range. replace (b - a)%nat with O by lia. reflexivity.
Qed.

End LoopFacts.

Section SortFacts.
Import Writer DedupSpec.



Lemma swap_length {A} (i j : nat) (s : list A) : length (swap i j s) = length s.
Proof.
  unfold swap. destruct (s !! i), (s !! j); try reflexivity.
  rewrite !length_insert. reflexivity.
Qed.









End SortFacts.

Section DedupFacts.
Import Writer DedupSpec.

Variable tol : Q.












End DedupFacts.

Section FlushDedup.
Import Writer DedupSpec.

Variable dbStore : DBPath -> list PendingWrite -> option string.


End FlushDedup.

(** Four writes out of order, at 10.05, 10.00, 10.30 and 10.12 s: the
    first three chain into one run, of which the write at 10.12 is kept. *)
Example deduplicateWrites_of_four :
  map Writer.Timestamp
    (Writer.deduplicateWrites
       [Writer.mkPendingWrite "SPX" (1005 # 100) ∅ ∅ (MarketHours.mkTime 0 0);
        Writer.mkPendingWrite "SPX" (1000 # 100) ∅ ∅ (MarketHours.mkTime 0 0);
        Writer.mkPendingWrite "SPX" (1030 # 100) ∅ ∅ (MarketHours.mkTime 0 0);
        Writer.mkPendingWrite "SPX" (1012 # 100) ∅ ∅ (MarketHours.mkTime 0 0)]
       Writer.tolerance)
  = [(1012 # 100)%Q; (1030 # 100)%Q].
Proof. vm_compute. reflexivity. Qed.
